(** * covid_tests_sesab: reconciliation of the SESAB extracts and the
      tests-versus-confirmed report, as a shallow embedding.

    The script [src/covid_tests_sesab.py] is one [__main__] block and one
    function, [plotar_testes_por_cidade].  The embedding follows it block by
    block:

    - a pandas DataFrame is a list of typed rows (the columns the script
      touches), a nullable cell is an [option];
    - the working directory is an association list in listing order, whose
      files hold already parsed tables; the DataFrame objects handed to the
      report function live in a store indexed by allocation order; what the
      script prints, reads, writes or draws is an event of a trace;
    - exceptions are an explicit outcome of every effectful step, and the
      world reached when one is raised is kept;
    - [pd.to_datetime] is a parameter of the development (a column-wise
      partial function), with the strict day/month/year parser given as one
      instance;
    - a rolled mean is an exact fraction; a figure is the data it shows;
      drawing fails where the script's plotting calls fail on the data (an
      empty series to draw), the rendering itself is not modelled;
    - argument parsing and [os.chdir] happen before the modelled body. *)

From Stdlib Require Import ZArith QArith List String Ascii Bool Lia.
From stdpp Require Import base tactics option list.
Import ListNotations.

Local Open Scope string_scope.
Local Open Scope list_scope.

(** ** Python string methods used by the script *)

Module Str.

(** [s.split(sep)] for a one-character separator: every occurrence cuts,
    empty pieces are kept, the result is never empty. *)
Fixpoint split (sep : ascii) (s : string) : list string :=
  match s with
  | EmptyString => [EmptyString]
  | String a s' =>
      if Ascii.eqb a sep then EmptyString :: split sep s'
      else match split sep s' with
           | h :: t => String a h :: t
           | [] => [String a EmptyString]
           end
  end.

(** [l[-1]] and [l[0]] on the result of a split (never empty). *)
Definition ultimo (l : list string) : string := List.last l EmptyString.
Definition primeiro (l : list string) : string := List.hd EmptyString l.

(** [s.replace(a, b)] for one-character [a] and [b]. *)
Fixpoint replace (a b : ascii) (s : string) : string :=
  match s with
  | EmptyString => EmptyString
  | String c s' => String (if Ascii.eqb c a then b else c) (replace a b s')
  end.

(** [glob(p + "*")] on a plain name: the name starts with [p]. *)
Definition startswith (p s : string) : bool := String.prefix p s.

End Str.

(** ** Data model *)

(** A calendar day, as [pd.to_datetime] yields it for a day/month/year
    text (no time of day). *)
Record Date := mkDate { year : Z; month : Z; day : Z }.

(** One line of a raw extract, restricted to the columns the script reads.
    [read_csv] turns an empty cell into a null, here [None]. *)
Record RawRow := mkRaw {
  raw_DATA_DA_NOTIFICACAO : option string;
  raw_MUNICIPIO_DE_RESIDENCIA : option string;
  raw_TIPO_DE_TESTE : option string;
  raw_DATA_DA_COLETA_DO_TESTE : option string;
  raw_RESULTADO_DO_TESTE : option string;
  raw_ESTADO_DO_TESTE : option string
}.

(** One line of the combined table, the five [colunas_interessantes].  The
    notification date column holds text before [pd.to_datetime] and dates
    after it, hence the parameter [D]. *)
Record Row (D : Type) := mkRow {
  DATA_DA_NOTIFICACAO : option D;
  MUNICIPIO_DE_RESIDENCIA : option string;
  TESTE : option bool;
  FONTE : string;
  DATA_DA_COLETA_DO_TESTE : option string
}.
Arguments mkRow {D}.
Arguments DATA_DA_NOTIFICACAO {D}.
Arguments MUNICIPIO_DE_RESIDENCIA {D}.
Arguments TESTE {D}.
Arguments FONTE {D}.
Arguments DATA_DA_COLETA_DO_TESTE {D}.

Abbreviation DataFrame := (list (Row Date)).

Definition CONFIRMADOS : string := "CONFIRMADOS".
Definition DESCARTADOS : string := "DESCARTADOS".
Definition SUSPEITOS : string := "SUSPEITOS".
Definition EXAME_NAO_SOLICITADO : string := "EXAME NAO SOLICITADO".
Definition BAHIA : string := "BAHIA".

(** [~col.isnull()] on one cell. *)
Definition notnull {A} (c : option A) : bool :=
  match c with Some _ => true | None => false end.

(** [col == s] on one cell: a null cell compares unequal. *)
Definition cell_eqb (c : option string) (s : string) : bool :=
  match c with Some v => String.eqb v s | None => false end.

(** ** Exceptions *)

Inductive exn :=
| IndexError
| KeyError (k : string)
| ValueError (msg : string)
| FileNotFoundError (f : string)
| ReferenceError
| SystemExit (msg : string).

Inductive outcome (A : Type) :=
| Ok (a : A)
| Raise (e : exn).
Arguments Ok {A}.
Arguments Raise {A}.

(** ** The reconciler (lines 254 to 317) *)

Module Reconciler.

(** Lines 258-259 and 266-267: confirmed and discarded lines get their
    source label and [TESTE = True]. *)
Definition marcar_testado (fonte : string) (r : RawRow) : RawRow * string * bool :=
  (r, fonte, true).

(** Lines 274-278: the three-column heuristic. *)
Definition indicio_de_teste (r : RawRow) : bool :=
  notnull (raw_TIPO_DE_TESTE r)
  || notnull (raw_DATA_DA_COLETA_DO_TESTE r)
  || notnull (raw_RESULTADO_DO_TESTE r).

(** Line 282: the [.loc[mask, ["TESTE"]] = False] assignment on one line. *)
Definition sobrescrever_nao_solicitado (r : RawRow) (teste : bool) : bool :=
  if cell_eqb (raw_ESTADO_DO_TESTE r) EXAME_NAO_SOLICITADO then false else teste.

(** Lines 260 and 272-282 on one suspected line (the initial [False] of
    line 272 is overwritten by line 274 on every line). *)
Definition marcar_suspeito (r : RawRow) : RawRow * string * bool :=
  let teste := indicio_de_teste r in
  (r, SUSPEITOS, sobrescrever_nao_solicitado r teste).

(** Lines 286-298: [frame[colunas_interessantes]]. *)
Definition colunas_interessantes (x : RawRow * string * bool) : Row string :=
  let '(r, fonte, teste) := x in
  {| DATA_DA_NOTIFICACAO := raw_DATA_DA_NOTIFICACAO r;
     MUNICIPIO_DE_RESIDENCIA := raw_MUNICIPIO_DE_RESIDENCIA r;
     TESTE := Some teste;
     FONTE := fonte;
     DATA_DA_COLETA_DO_TESTE := raw_DATA_DA_COLETA_DO_TESTE r |}.

(** Line 300: [pd.concat(combinar)]. *)
Definition combinar (confirmados descartados suspeitos : list RawRow) : list (Row string) :=
  map colunas_interessantes (map (marcar_testado CONFIRMADOS) confirmados)
  ++ map colunas_interessantes (map (marcar_testado DESCARTADOS) descartados)
  ++ map colunas_interessantes (map marcar_suspeito suspeitos).

(** Line 305: lines without a notification date are dropped. *)
Definition com_data (t : list (Row string)) : list (Row string) :=
  List.filter (fun r => notnull (DATA_DA_NOTIFICACAO r)) t.

(** The text column handed to [pd.to_datetime]. *)
Definition coluna_data (t : list (Row string)) : list string :=
  flat_map (fun r => match DATA_DA_NOTIFICACAO r with
                     | Some s => [s]
                     | None => []
                     end) t.

Definition set_data {D E} (r : Row D) (d : option E) : Row E :=
  {| DATA_DA_NOTIFICACAO := d;
     MUNICIPIO_DE_RESIDENCIA := MUNICIPIO_DE_RESIDENCIA r;
     TESTE := TESTE r;
     FONTE := FONTE r;
     DATA_DA_COLETA_DO_TESTE := DATA_DA_COLETA_DO_TESTE r |}.

(** Line 317: [.dt.year >= 2020]; a missing date ([NaT]) compares false. *)
Definition ano_valido (r : Row Date) : bool :=
  match DATA_DA_NOTIFICACAO r with
  | Some d => (2020 <=? year d)%Z
  | None => false
  end.

Section WithToDatetime.

(** [pd.to_datetime(col, format='%d/%m/%Y', infer_datetime_format=True)]
    on a column of texts: it raises ([None]) or returns one cell per
    text, a cell being a date or [NaT] ([None]). *)
Variable to_datetime : list string -> option (list (option Date)).

(** Lines 309-313: the column assignment.  pandas refuses a column of
    another length. *)
Definition converter_datas (t : list (Row string)) : outcome DataFrame :=
  match to_datetime (coluna_data t) with
  | None => Raise (ValueError "to_datetime")
  | Some ds =>
      if Nat.eqb (length ds) (length t)
      then Ok (map (fun '(r, d) => set_data r d) (combine t ds))
      else Raise (ValueError "Length of values does not match length of index")
  end.

(** Lines 294-317. *)
Definition reconciliar (confirmados descartados suspeitos : list RawRow)
  : outcome DataFrame :=
  let combinado := combinar confirmados descartados suspeitos in
  let combinado := com_data combinado in
  match converter_datas combinado with
  | Raise e => Raise e
  | Ok combinado => Ok (List.filter ano_valido combinado)
  end.

End WithToDatetime.

End Reconciler.

(** ** Calendar arithmetic and the strict day/month/year parser *)

Module Calendar.

Local Open Scope Z_scope.

(** Days since 1970-01-01 of a proleptic Gregorian date. *)
Definition ordinal (d : Date) : Z :=
  let y := if month d <=? 2 then year d - 1 else year d in
  let era := y / 400 in
  let yoe := y - era * 400 in
  let mp := if month d >? 2 then month d - 3 else month d + 9 in
  let doy := (153 * mp + 2) / 5 + day d - 1 in
  let doe := yoe * 365 + yoe / 4 - yoe / 100 + doy in
  era * 146097 + doe - 719468.

Definition bissexto (y : Z) : bool :=
  ((y mod 4 =? 0) && negb (y mod 100 =? 0)) || (y mod 400 =? 0).

Definition dias_no_mes (y m : Z) : Z :=
  if m =? 2 then (if bissexto y then 29 else 28)
  else if (m =? 4) || (m =? 6) || (m =? 9) || (m =? 11) then 30
  else 31.

Definition digito (c : ascii) : option Z :=
  let n := Z.of_nat (nat_of_ascii c) in
  if (48 <=? n) && (n <=? 57) then Some (n - 48) else None.

Fixpoint numero (acc : Z) (s : string) : option Z :=
  match s with
  | EmptyString => Some acc
  | String c s' =>
      match digito c with
      | Some v => numero (acc * 10 + v) s'
      | None => None
      end
  end.

(** A field of one or two digits ([%d], [%m]). *)
Definition campo_curto (s : string) : option Z :=
  if (1 <=? Z.of_nat (String.length s)) && (Z.of_nat (String.length s) <=? 2)
  then numero 0 s else None.

(** A field of exactly four digits ([%Y]). *)
Definition campo_ano (s : string) : option Z :=
  if Z.of_nat (String.length s) =? 4 then numero 0 s else None.

(** The nanosecond range of a pandas timestamp, at midnight:
    1677-09-22 to 2262-04-11. *)
Definition nos_limites (d : Date) : bool :=
  (ordinal (mkDate 1677 9 22) <=? ordinal d) && (ordinal d <=? ordinal (mkDate 2262 4 11)).

(** [strptime(s, "%d/%m/%Y")], whole text consumed. *)
Definition strptime_dmY (s : string) : option Date :=
  match Str.split "/" s with
  | [sd; sm; sy] =>
      match campo_curto sd, campo_curto sm, campo_ano sy with
      | Some d, Some m, Some y =>
          if (1 <=? m) && (m <=? 12) && (1 <=? d) && (d <=? dias_no_mes y m)
             && nos_limites (mkDate y m d)
          then Some (mkDate y m d) else None
      | _, _, _ => None
      end
  | _ => None
  end.

(** The texts pandas reads as a missing date. *)
Definition nat_string (s : string) : bool :=
  String.eqb s "" || String.eqb s "NaT" || String.eqb s "nat" || String.eqb s "NAT"
  || String.eqb s "nan" || String.eqb s "NaN" || String.eqb s "NAN".

(** A strict instance of the parameter [to_datetime], for running the
    script on columns of well-formed dates.  It is not all of
    [pd.to_datetime]: with [infer_datetime_format=True] pandas 1.x falls back
    to its general parser for the whole column when one text does not match
    the format, which this instance does not do.  The properties below hold
    for every conversion; this one only feeds examples.

    The strict instance: every text is a missing-date
    text or matches day/month/year, otherwise the call raises. *)
Fixpoint to_datetime_dmY (col : list string) : option (list (option Date)) :=
  match col with
  | [] => Some []
  | s :: col' =>
      let cell := if nat_string s then Some None
                  else match strptime_dmY s with
                       | Some d => Some (Some d)
                       | None => None
                       end in
      match cell, to_datetime_dmY col' with
      | Some c, Some cs => Some (c :: cs)
      | _, _ => None
      end
  end.

End Calendar.

(** ** Daily series: resample, rolling mean, filter, quotient *)

Module Series.

(** The days of the index ([DatetimeIndex] of the notification dates);
    lines without a date fall in no daily bin. *)
Definition dias (t : DataFrame) : list Z :=
  flat_map (fun r => match DATA_DA_NOTIFICACAO r with
                     | Some d => [Calendar.ordinal d]
                     | None => []
                     end) t.

Definition no_dia (d : Z) (r : Row Date) : bool :=
  match DATA_DA_NOTIFICACAO r with
  | Some x => (Calendar.ordinal x =? d)%Z
  | None => false
  end.

(** [["TESTE"].count()] in the bin of day [d]: the non-null cells. *)
Definition contar_dia (t : DataFrame) (d : Z) : nat :=
  length (List.filter (fun r => no_dia d r && notnull (TESTE r)) t).

(** The consecutive days [lo, lo+1, ..., hi]. *)
Definition intervalo (lo hi : Z) : list Z :=
  map (fun i => (lo + Z.of_nat i)%Z) (seq 0 (Z.to_nat (hi - lo + 1))).

(** [t.resample("1d")["TESTE"].count()]: one bin per calendar day from the
    first to the last day of the index, empty for an empty index. *)
Definition resample_count (t : DataFrame) : list (Z * nat) :=
  match dias t with
  | [] => []
  | d0 :: ds =>
      map (fun d => (d, contar_dia t d))
          (intervalo (fold_right Z.min d0 ds) (fold_right Z.max d0 ds))
  end.

Definition soma (xs : list nat) : nat := fold_right Nat.add 0 xs.

(** The [w] observations ending at position [i]. *)
Definition janela_em (w i : nat) (xs : list nat) : list nat :=
  firstn w (skipn (S i - w) xs).

(** [.rolling(window=w).mean()] for [w >= 0]: the mean of the last [w]
    observations, missing while fewer than [max w 1] are available.  The
    mean is kept as an exact fraction (sums of counts are exact in double
    precision as well). *)
Definition rolling_mean (w : nat) (s : list (Z * nat)) : list (Z * option Q) :=
  let xs := map snd s in
  map (fun '(i, (d, _)) =>
         (d, if ((1 <=? w) && (w <=? S i))%nat
             then Some (Z.of_nat (soma (janela_em w i xs)) # Pos.of_nat w)
             else None))
      (combine (seq 0 (length s)) s).

(** [v > 1] on a rolled value. *)
Definition gt1 (v : Q) : bool := negb (Qle_bool v 1).

(** [s[s > 1]]: a missing value compares false and is dropped. *)
Definition maior_que_1 (s : list (Z * option Q)) : list (Z * Q) :=
  flat_map (fun '(d, v) => match v with
                           | Some q => if gt1 q then [(d, q)] else []
                           | None => []
                           end) s.

(** [s.gt(1)] on an already filtered series (lines 170-171). *)
Definition manter_gt1 (s : list (Z * Q)) : list (Z * Q) :=
  List.filter (fun '(_, q) => gt1 q) s.

(** Value of a series at a day. *)
Fixpoint valor {A} (d : Z) (s : list (Z * A)) : option A :=
  match s with
  | [] => None
  | (d', v) :: s' => if (d' =? d)%Z then Some v else valor d s'
  end.

(** Insertion of a day in a sorted index without repetition. *)
Fixpoint inserir_dia (d : Z) (l : list Z) : list Z :=
  match l with
  | [] => [d]
  | x :: l' =>
      if (d <? x)%Z then d :: l
      else if (d =? x)%Z then l
      else x :: inserir_dia d l'
  end.

(** The union of two indexes, sorted. *)
Definition uniao (a b : list Z) : list Z :=
  fold_right inserir_dia [] (a ++ b).

(** [a / b] on two series: the result is indexed by the union of the two
    indexes, and a day missing on either side has a missing value. *)
Definition dividir (a b : list (Z * Q)) : list (Z * option Q) :=
  map (fun d => (d, match valor d a, valor d b with
                    | Some x, Some y => Some (x / y)%Q
                    | _, _ => None
                    end))
      (uniao (map fst a) (map fst b)).

End Series.

(** ** The world of the script: directory, DataFrame objects, trace *)

(** A file of the working directory, by what [read_csv] finds in it: a raw
    extract (semicolon separated) or a combined table (the cache). *)
Inductive File :=
| FRaw (t : list RawRow)
| FTable (t : DataFrame).

(** What a figure shows: the two areas, the quotient line, the title and
    the annotated total. *)
Record Chart := mkChart {
  chart_tests : list (Z * Q);
  chart_confirmado : list (Z * Q);
  chart_ratio : list (Z * option Q);
  chart_title : string;
  chart_total : nat
}.

Inductive event :=
| Print (s : string)
| ReadCsv (f : string)
| ToCsv (f : string)
| SaveFig (f : string) (c : Chart)
| Show (c : Chart).

(** A DataFrame object is named by its position in the store. *)
Abbreviation loc := nat.

Record World := mkWorld {
  cwd : list (string * File);
  heap : list DataFrame;
  trace : list event
}.

(** A Python dict with text keys, in insertion order: assigning an existing
    key keeps its position. *)
Module Dict.

Fixpoint set {V} (k : string) (v : V) (d : list (string * V)) : list (string * V) :=
  match d with
  | [] => [(k, v)]
  | (k', v') :: d' =>
      if String.eqb k' k then (k', v) :: d' else (k', v') :: set k v d'
  end.

Fixpoint get {V} (k : string) (d : list (string * V)) : option V :=
  match d with
  | [] => None
  | (k', v) :: d' => if String.eqb k' k then Some v else get k d'
  end.

End Dict.

(** Computations of the script: a world in, an outcome and a world out.
    What was done before an exception stays done. *)
Definition M (A : Type) : Type := World -> outcome A * World.

Definition ret {A} (a : A) : M A := fun w => (Ok a, w).

Definition raise {A} (e : exn) : M A := fun w => (Raise e, w).

Definition bind {A B} (m : M A) (k : A -> M B) : M B :=
  fun w => match m w with
           | (Ok a, w') => k a w'
           | (Raise e, w') => (Raise e, w')
           end.

Notation "'let*' x ':=' c1 'in' c2" := (bind c1 (fun x => c2))
  (at level 10, x name, c1 at level 100, c2 at level 200).
Notation "c1 '>>' c2" := (bind c1 (fun _ => c2))
  (at level 100, c2 at level 200, right associativity).

Definition lift {A} (o : outcome A) : M A :=
  match o with
  | Ok a => ret a
  | Raise e => raise e
  end.

Definition emit (e : event) : M unit :=
  fun w => (Ok tt, {| cwd := cwd w; heap := heap w; trace := trace w ++ [e] |}).

Definition print (s : string) : M unit := emit (Print s).

(** [glob(prefix + "*")]: the matching names, in listing order. *)
Definition glob (prefix : string) : M (list string) :=
  fun w => (Ok (List.filter (Str.startswith prefix) (map fst (cwd w))), w).

(** [Path(name).exists()]. *)
Definition path_exists (name : string) : M bool :=
  fun w => (Ok (notnull (Dict.get name (cwd w))), w).

(** [pd.read_csv(name, ...)]: the content of the file. *)
Definition read_csv (name : string) : M File :=
  fun w => match Dict.get name (cwd w) with
           | Some f => (Ok f, {| cwd := cwd w; heap := heap w;
                                 trace := trace w ++ [ReadCsv name] |})
           | None => (Raise (FileNotFoundError name), w)
           end.

(** [frame.to_csv(name)]. *)
Definition to_csv (name : string) (t : DataFrame) : M unit :=
  fun w => (Ok tt, {| cwd := Dict.set name (FTable t) (cwd w);
                      heap := heap w;
                      trace := trace w ++ [ToCsv name] |}).

(** A new DataFrame object. *)
Definition alloc (t : DataFrame) : M loc :=
  fun w => (Ok (length (heap w)),
            {| cwd := cwd w; heap := heap w ++ [t]; trace := trace w |}).

(** The DataFrame a name is bound to. *)
Definition deref (l : loc) : M DataFrame :=
  fun w => match heap w !! l with
           | Some t => (Ok t, w)
           | None => (Raise ReferenceError, w)
           end.

(** ** The reporter: [plotar_testes_por_cidade] (lines 114 to 195) *)

Definition nl : string := String (ascii_of_nat 10) EmptyString.

Definition MSG_NENHUM_REGISTRO : string :=
  "Erro: Nenhum registro encontrado. Cidade não está listada ou nome está errado ou fora do padrão aceitado. Gráfico não gerado.".

(** Line 150: [combinado[combinado["MUNICIPIO DE RESIDENCIA"] == cidade]]. *)
Definition filtrar_cidade (cidade : string) (t : DataFrame) : DataFrame :=
  List.filter (fun r => cell_eqb (MUNICIPIO_DE_RESIDENCIA r) cidade) t.

(** Line 159: [combinado.loc[combinado.FONTE == "CONFIRMADOS"]]. *)
Definition apenas_confirmados (t : DataFrame) : DataFrame :=
  List.filter (fun r => String.eqb (FONTE r) CONFIRMADOS) t.

(** Lines 158-164: the two rolled series, their filter and the quotient. *)
Definition serie_tests (w : nat) (t : DataFrame) : list (Z * option Q) :=
  Series.rolling_mean w (Series.resample_count t).

Definition serie_confirmado (w : nat) (t : DataFrame) : list (Z * option Q) :=
  Series.rolling_mean w (Series.resample_count (apenas_confirmados t)).

(** Lines 178-181. *)
Definition titulo (cidade data : string) : string :=
  if String.eqb cidade BAHIA
  then "Casos de COVID - " ++ cidade ++ " (Fonte: SESAB, em " ++ data ++ ")"
  else "Casos de COVID - " ++ cidade ++ " - BA (Fonte: SESAB, em " ++ data ++ ")".

(** Line 195. *)
Definition nome_do_plot (cidade data : string) : string :=
  "plot_" ++ Str.replace " " "_" cidade ++ "_" ++ data ++ ".png".

(** Lines 158-190 on the filtered table: what the figure holds. *)
Definition montar_figura (w : nat) (t : DataFrame) (cidade data : string) : Chart :=
  let tests := serie_tests w t in
  let confirmado := serie_confirmado w t in
  let tests := Series.maior_que_1 tests in
  let confirmado := Series.maior_que_1 confirmado in
  let ratio := Series.dividir confirmado tests in
  {| chart_tests := Series.manter_gt1 tests;
     chart_confirmado := Series.manter_gt1 confirmado;
     chart_ratio := ratio;
     chart_title := titulo cidade data;
     chart_total := length t |}.

(** Lines 149-150.  [combinado] is a reference to the caller's DataFrame;
    the filter builds a new DataFrame and rebinds the local name to it. *)
Definition selecionar_cidade (combinado : loc) (cidade : string) : M loc :=
  if negb (String.eqb cidade BAHIA)
  then let* t := deref combinado in alloc (filtrar_cidade cidade t)
  else ret combinado.

(** Line 158: the daily bins of [resample] end one day after the last day
    of the index, and a pandas timestamp cannot hold the day after
    2262-04-11; the call raises OutOfBoundsDatetime, a ValueError. *)
Definition ULTIMO_DIA : Z := Calendar.ordinal (mkDate 2262 4 11).

Definition fora_dos_limites (t : DataFrame) : bool :=
  existsb (fun d => (ULTIMO_DIA <=? d)%Z) (Series.dias t).

Definition MSG_FORA_DOS_LIMITES : string := "Out of bounds nanosecond timestamp".

(** Lines 170-171: [.plot.area] on a series that the [> 1] filter left empty
    raises a ValueError (the text of the message is the library's and is
    not modelled). *)
Definition MSG_SERIE_VAZIA : string := "empty series".

(** Lines 152-195, on the table the local name is bound to.  With no line
    the function prints and returns.  Otherwise [resample] (line 158) may
    find the index out of bounds, [.rolling(window=w)] refuses a negative
    window, and each of the two area plots (lines 170 and 171) fails on an
    empty series; nothing is saved or shown unless both are drawn. *)
Definition plotar_corpo (t : DataFrame) (cidade data : string)
    (tamanho_da_janela : Z) (interativo : bool) : M unit :=
  let N := length t in
  if Nat.eqb N 0 then print MSG_NENHUM_REGISTRO
  else if fora_dos_limites t then raise (ValueError MSG_FORA_DOS_LIMITES)
  else if (tamanho_da_janela <? 0)%Z then raise (ValueError "window must be non-negative")
  else
    let fig := montar_figura (Z.to_nat tamanho_da_janela) t cidade data in
    match chart_tests fig with
    | [] => raise (ValueError MSG_SERIE_VAZIA)
    | _ :: _ =>
        match chart_confirmado fig with
        | [] => raise (ValueError MSG_SERIE_VAZIA)
        | _ :: _ =>
            if interativo then emit (Show fig)
            else emit (SaveFig (nome_do_plot cidade data) fig)
        end
    end.

Definition plotar_testes_por_cidade (combinado : loc) (cidade data : string)
    (tamanho_da_janela : Z) (interativo : bool) : M unit :=
  let* combinado := selecionar_cidade combinado cidade in
  let* t := deref combinado in
  plotar_corpo t cidade data tamanho_da_janela interativo.

(** ** The script body (lines 198 to 337) *)

Record Args := mkArgs {
  args_pasta : string;
  args_cidades : list string;
  args_janela : Z;
  args_interativo : bool
}.

Definition PADRAO_ARQUIVOS : string := "Banco Estadual COVID-19".

Definition MSG_NUMERO_DE_ARQUIVOS : string :=
  "Número de arquivos diferente de 3, cheque os arquivos e rode novamente.".

(** Line 232: [arquivos[0].split("_")[-1].split(".")[0]]. *)
Definition data_do_arquivo (arquivo : string) : string :=
  Str.primeiro (Str.split "." (Str.ultimo (Str.split "_" arquivo))).

(** Lines 236 and 320. *)
Definition nome_da_base (data : string) : string :=
  "base-de-testes_" ++ data ++ ".csv".

(** Line 241: [arquivo.split(" ")[-1].split("_")[0]]. *)
Definition chave_do_arquivo (arquivo : string) : string :=
  Str.primeiro (Str.split "_" (Str.ultimo (Str.split " " arquivo))).

(** Lines 241-243: the dict comprehension. *)
Definition montar_chaves (arquivos : list string) : list (string * string) :=
  fold_left (fun d arquivo => Dict.set (chave_do_arquivo arquivo) arquivo d) arquivos [].

(** Lines 247-252: one [read_csv] per key, in the order of the dict. *)
Fixpoint carregar_dados (chaves : list (string * string)) : M (list (string * File)) :=
  match chaves with
  | [] => ret []
  | (chave, arquivo) :: resto =>
      let* f := read_csv arquivo in
      let* fs := carregar_dados resto in
      ret ((chave, f) :: fs)
  end.

(** [d[k]] on a dict. *)
Definition item {V} (k : string) (d : list (string * V)) : M V :=
  match Dict.get k d with
  | Some v => ret v
  | None => raise (KeyError k)
  end.

(** The lines of a loaded extract; a file that is not a raw extract lacks
    the column asked for first. *)
Definition linhas (coluna : string) (f : File) : M (list RawRow) :=
  match f with
  | FRaw t => ret t
  | FTable _ => raise (KeyError coluna)
  end.

(** Line 327: [combinado[combinado["TESTE"]]]; pandas refuses a mask with
    a null in it. *)
Definition apenas_testados (t : DataFrame) : outcome DataFrame :=
  if forallb (fun r => notnull (TESTE r)) t
  then Ok (List.filter (fun r => match TESTE r with Some b => b | None => false end) t)
  else Raise (ValueError "Cannot mask with non-boolean array containing NA / NaN values").

(** Lines 332-337. *)
Fixpoint relatorios (combinado : loc) (data : string) (janela : Z) (interativo : bool)
    (cidades_requisitadas : list string) : M unit :=
  match cidades_requisitadas with
  | [] => ret tt
  | cidade :: resto =>
      print ("Plotando gráficos para a cidade: " ++ cidade) >>
      plotar_testes_por_cidade combinado cidade data janela interativo >>
      relatorios combinado data janela interativo resto
  end.

(** Lines 327-337 on a frame whose TESTE column is boolean: the tested
    lines (line 327), indexed by notification date (line 328), are one
    DataFrame object shared by all the reports. *)
Definition relatar (combinado : DataFrame) (data : string) (args : Args) : M unit :=
  let* combinado := lift (apenas_testados combinado) in
  let* combinado := alloc combinado in
  relatorios combinado data (args_janela args) (args_interativo args) (args_cidades args).

(** Lines 327-337 on the frame either branch left, given with the type of
    its TESTE column.  On a TESTE column that is not boolean (a cache read
    back without lines) line 327 selects no column, which gives a new frame
    without lines, and line 328 raises KeyError on the date column. *)
Definition relatar_frame (combinado : DataFrame * bool) (data : string) (args : Args)
    : M unit :=
  let '(linhas_lidas, teste_booleano) := combinado in
  if teste_booleano then relatar linhas_lidas data args
  else let* _ := alloc [] in raise (KeyError "DATA DA NOTIFICACAO").

Section Main.

Variable to_datetime : list string -> option (list (option Date)).

(** Lines 238-320: the branch taken when the cache is absent. *)
Definition gerar_base (arquivos : list string) (data : string) : M DataFrame :=
  if negb (Nat.eqb (length arquivos) 3) then raise (SystemExit MSG_NUMERO_DE_ARQUIVOS)
  else
    let chaves := montar_chaves arquivos in
    print ("Carregando arquivos do dia: " ++ data ++ " " ++ nl) >>
    let* dados := carregar_dados chaves in
    let* confirmados := item CONFIRMADOS dados in
    let* descartados := item DESCARTADOS dados in
    let* suspeitos := item SUSPEITOS dados in
    print "Realizando limpeza dos dados" >>
    let* suspeitos := linhas "TIPO DE TESTE" suspeitos in
    let* confirmados := linhas "DATA DA NOTIFICACAO" confirmados in
    let* descartados := linhas "DATA DA NOTIFICACAO" descartados in
    let* combinado := lift (Reconciler.reconciliar to_datetime confirmados descartados suspeitos) in
    to_csv (nome_da_base data) combinado >>
    ret combinado.

(** Lines 322-325: the branch taken when the cache exists.  The frame read
    has the lines of the cached table; its TESTE column is boolean when the
    cache has lines, and untyped when the file holds the header alone. *)
Definition carregar_base (data : string) : M (DataFrame * bool) :=
  print (nl ++ "Carregando base de dados." ++ nl) >>
  let* f := read_csv (nome_da_base data) in
  match f with
  | FTable t => ret (t, match t with [] => false | _ :: _ => true end)
  | FRaw _ => raise (ValueError "Missing column provided to 'parse_dates': 'DATA DA NOTIFICACAO'")
  end.

(** The body of the script, after the arguments are parsed and the
    process is in the data folder ([cwd] is that folder). *)
Definition main (args : Args) : M unit :=
  let* arquivos := glob PADRAO_ARQUIVOS in
  let* primeiro := (match arquivos with
                    | [] => raise IndexError
                    | a :: _ => ret a
                    end) in
  let data := data_do_arquivo primeiro in
  let* existe := path_exists (nome_da_base data) in
  let* combinado := (if negb existe
                     then let* t := gerar_base arquivos data in ret (t, true)
                     else carregar_base data) in
  relatar_frame combinado data args.

End Main.

(** ** Sample data *)

Module Exemplo.

Definition linha (data municipio : string) : RawRow :=
  mkRaw (Some data) (Some municipio) None None None None.

Definition suspeito (data municipio : string) (tipo estado : option string) : RawRow :=
  mkRaw (Some data) (Some municipio) tipo None None estado.

Definition sem_data : RawRow := mkRaw None None None None None None.

Definition confirmados : list RawRow :=
  [linha "01/01/2021" "ITABUNA"; linha "01/01/2021" "ITABUNA";
   linha "02/01/2021" "ITABUNA"; linha "02/01/2021" "ITABUNA";
   linha "03/01/2021" "ILHEUS"; linha "03/01/2019" "ILHEUS"].

Definition descartados : list RawRow :=
  [linha "01/01/2021" "ITABUNA"; linha "02/01/2021" "ITABUNA"; sem_data].

Definition suspeitos : list RawRow :=
  [suspeito "01/01/2021" "ITABUNA" (Some "RT-PCR") None;
   suspeito "02/01/2021" "ITABUNA" (Some "RT-PCR") (Some "EXAME NAO SOLICITADO");
   suspeito "02/01/2021" "ITABUNA" None None].

Definition arq_confirmados : string := "Banco Estadual COVID-19 CONFIRMADOS_2021-01-05.csv".
Definition arq_descartados : string := "Banco Estadual COVID-19 DESCARTADOS_2021-01-05.csv".
Definition arq_suspeitos : string := "Banco Estadual COVID-19 SUSPEITOS_2021-01-05.csv".

(** A folder with the three extracts of one day and no cache. *)
Definition pasta_nova : list (string * File) :=
  [(arq_confirmados, FRaw confirmados);
   (arq_descartados, FRaw descartados);
   (arq_suspeitos, FRaw suspeitos)].

Definition mundo (pasta : list (string * File)) : World :=
  {| cwd := pasta; heap := []; trace := [] |}.

Definition args : Args :=
  {| args_pasta := "."; args_cidades := ["ITABUNA"; "XIQUE-XIQUE"; "BAHIA"];
     args_janela := 1; args_interativo := false |}.

(** The reconciled table of the sample, and its tested lines. *)
Definition base : DataFrame :=
  match Reconciler.reconciliar Calendar.to_datetime_dmY confirmados descartados suspeitos with
  | Ok t => t
  | Raise _ => []
  end.

Definition testados : DataFrame :=
  match apenas_testados base with
  | Ok t => t
  | Raise _ => []
  end.

(** The same folder after a first run: the cache is there. *)
Definition pasta_com_base : list (string * File) :=
  pasta_nova ++ [("base-de-testes_2021-01-05.csv", FTable base)].

(** A folder holding a cache and no extract. *)
Definition pasta_so_base : list (string * File) :=
  [("base-de-testes_2021-01-05.csv", FTable base)].

(** A folder holding two of the three extracts and no cache. *)
Definition pasta_incompleta : list (string * File) :=
  [(arq_confirmados, FRaw confirmados); (arq_suspeitos, FRaw suspeitos)].

(** Two days of one municipality: three tested lines a day, two of them
    confirmed on the first day and one on the second. *)
Definition testado (dia : Z) (fonte : string) : Row Date :=
  {| DATA_DA_NOTIFICACAO := Some (mkDate 2021 1 dia);
     MUNICIPIO_DE_RESIDENCIA := Some "ITABUNA";
     TESTE := Some true;
     FONTE := fonte;
     DATA_DA_COLETA_DO_TESTE := None |}.

Definition dois_dias : DataFrame :=
  [testado 1 CONFIRMADOS; testado 1 CONFIRMADOS; testado 1 DESCARTADOS;
   testado 2 CONFIRMADOS; testado 2 DESCARTADOS; testado 2 SUSPEITOS].

(** The scenario of nine lines: three confirmed, two discarded, four
    suspected of which two carry a test result. *)
Definition com_resultado (data : string) : RawRow :=
  mkRaw (Some data) (Some "ITABUNA") None None (Some "POSITIVO") None.

Definition cenario_confirmados : list RawRow :=
  [linha "01/03/2021" "ITABUNA"; linha "02/03/2021" "ITABUNA"; linha "03/03/2021" "ITABUNA"].

Definition cenario_descartados : list RawRow :=
  [linha "04/03/2021" "ITABUNA"; linha "05/03/2021" "ITABUNA"].

Definition cenario_suspeitos : list RawRow :=
  [com_resultado "01/03/2021"; com_resultado "02/03/2021";
   suspeito "03/03/2021" "ITABUNA" None (Some "AGUARDANDO COLETA");
   suspeito "04/03/2021" "ITABUNA" None None].

(** A world in which the tested lines are the first DataFrame object. *)
Definition mundo_com_tabela : World :=
  {| cwd := pasta_com_base; heap := [testados]; trace := [] |}.

End Exemplo.

(** ** Vocabulary of the statements *)

(** The type of the date conversion the script is run with. *)
Abbreviation ToDatetime := (list string -> option (list (option Date))).

(** The events of the report stage: messages and figures. *)
Definition is_report_event (e : event) : Prop :=
  match e with
  | Print _ | SaveFig _ _ | Show _ => True
  | ReadCsv _ | ToCsv _ => False
  end.

Definition add_trace (evs : list event) (w : World) : World :=
  {| cwd := cwd w; heap := heap w; trace := trace w ++ evs |}.

Definition add_heap (ts : list DataFrame) (w : World) : World :=
  {| cwd := cwd w; heap := heap w ++ ts; trace := trace w |}.

Definition set_cwd (c : list (string * File)) (w : World) : World :=
  {| cwd := c; heap := heap w; trace := trace w |}.

(** A computation that leaves the folder alone, only adds DataFrame
    objects, and only emits report events. *)
Definition report_effect {A} (m : M A) : Prop :=
  forall w,
    cwd (snd (m w)) = cwd w
    /\ (exists ts, heap (snd (m w)) = heap w ++ ts)
    /\ (exists evs, trace (snd (m w)) = trace w ++ evs /\ Forall is_report_event evs).

(** A computation that neither reads nor writes the folder. *)
Definition cwd_frame {A} (m : M A) : Prop :=
  forall w c, m (set_cwd c w) = (fst (m w), set_cwd c (snd (m w))).

(** [c in s] for a character. *)
Fixpoint ocorre (c : ascii) (s : string) : bool :=
  match s with
  | EmptyString => false
  | String a s' => Ascii.eqb a c || ocorre c s'
  end.

(** Sample folders for the first run. *)
Module Exemplo2.

(** Three extracts, two of them of the confirmed category. *)
Definition pasta_repetida : list (string * File) :=
  [(Exemplo.arq_confirmados, FRaw Exemplo.confirmados);
   (Exemplo.arq_suspeitos, FRaw Exemplo.suspeitos);
   ("Banco Estadual COVID-19 CONFIRMADOS_2021-01-06.csv", FRaw Exemplo.confirmados)].

(** Three extracts, one with a notification date that is no date. *)
Definition pasta_data_ruim : list (string * File) :=
  [(Exemplo.arq_confirmados, FRaw [Exemplo.linha "sem data" "ITABUNA"]);
   (Exemplo.arq_descartados, FRaw Exemplo.descartados);
   (Exemplo.arq_suspeitos, FRaw Exemplo.suspeitos)].

End Exemplo2.

(** The columns of a line other than the notification date. *)
Definition outras_colunas {D} (r : Row D) : option string * option bool * string * option string :=
  (MUNICIPIO_DE_RESIDENCIA r, TESTE r, FONTE r, DATA_DA_COLETA_DO_TESTE r).

(** Sample folders and tables for the error paths of the report stage. *)
Module Exemplo3.

(** Three extracts without lines. *)
Definition pasta_sem_linhas : list (string * File) :=
  [(Exemplo.arq_confirmados, FRaw []);
   (Exemplo.arq_descartados, FRaw []);
   (Exemplo.arq_suspeitos, FRaw [])].

(** Tested lines on the last day a pandas timestamp can hold. *)
Definition ultimo_dia : DataFrame :=
  [{| DATA_DA_NOTIFICACAO := Some (mkDate 2262 4 11);
      MUNICIPIO_DE_RESIDENCIA := Some "ITABUNA";
      TESTE := Some true;
      FONTE := CONFIRMADOS;
      DATA_DA_COLETA_DO_TESTE := None |};
   {| DATA_DA_NOTIFICACAO := Some (mkDate 2262 4 11);
      MUNICIPIO_DE_RESIDENCIA := Some "ITABUNA";
      TESTE := Some true;
      FONTE := CONFIRMADOS;
      DATA_DA_COLETA_DO_TESTE := None |}].

End Exemplo3.

(** * Properties *)

(** ** Generic list facts *)

Lemma Forall2_map_diag {A B} (P : A -> B -> Prop) (f : A -> B) (l : list A) :
  (forall x, P x (f x)) -> Forall2 P l (map f l).
Proof.
  intros Hf. induction l as [|x l IH]; simpl; constructor; auto.
Qed.

Lemma notnull_true {A} (c : option A) : notnull c = true <-> c <> None.
Proof. destruct c; simpl; split; congruence. Qed.

Lemma cell_eqb_true (c : option string) (s : string) :
  cell_eqb c s = true <-> c = Some s.
Proof.
  destruct c as [v|]; simpl.
  - rewrite String.eqb_eq. split; congruence.
  - split; congruence.
Qed.

(** ** The tested flag *)

Lemma indicio_de_teste_true (r : RawRow) :
  Reconciler.indicio_de_teste r = true <->
  raw_TIPO_DE_TESTE r <> None \/ raw_DATA_DA_COLETA_DO_TESTE r <> None
  \/ raw_RESULTADO_DO_TESTE r <> None.
Proof.
  unfold Reconciler.indicio_de_teste.
  rewrite !orb_true_iff, !notnull_true. tauto.
Qed.

Lemma teste_suspeito_spec (r : RawRow) :
  let row := Reconciler.colunas_interessantes (Reconciler.marcar_suspeito r) in
  FONTE row = SUSPEITOS
  /\ (TESTE row = Some true \/ TESTE row = Some false)
  /\ (TESTE row = Some true <->
      (raw_TIPO_DE_TESTE r <> None \/ raw_DATA_DA_COLETA_DO_TESTE r <> None
       \/ raw_RESULTADO_DO_TESTE r <> None)
      /\ raw_ESTADO_DO_TESTE r <> Some EXAME_NAO_SOLICITADO)
  /\ (raw_ESTADO_DO_TESTE r = Some EXAME_NAO_SOLICITADO -> TESTE row = Some false).
Proof.
  simpl. unfold Reconciler.sobrescrever_nao_solicitado.
  rewrite <- indicio_de_teste_true.
  destruct (cell_eqb (raw_ESTADO_DO_TESTE r) EXAME_NAO_SOLICITADO) eqn:He.
  - apply cell_eqb_true in He. repeat split; auto; try congruence.
    intros [_ Hne]. congruence.
  - assert (Hne : raw_ESTADO_DO_TESTE r <> Some EXAME_NAO_SOLICITADO).
    { intros Heq. apply cell_eqb_true in Heq. congruence. }
    repeat split; auto; try congruence.
    + destruct (Reconciler.indicio_de_teste r); auto.
    + intros [Hi _]. congruence.
Qed.

(** C1. Every confirmed and every discarded line enters the combined table
    with [TESTE = True]; a suspected line enters it with a boolean [TESTE]
    that is [True] exactly when one of test type, collection date, test
    result is non-null and the test status is not "EXAME NAO SOLICITADO";
    a line with that status gets [False] whatever the three fields hold. *)
Theorem teste_by_source (confirmados descartados suspeitos : list RawRow) :
  exists tc td ts : list (Row string),
    Reconciler.combinar confirmados descartados suspeitos = (tc ++ td ++ ts)%list
    /\ Forall2 (fun (_ : RawRow) (row : Row string) =>
                  FONTE row = CONFIRMADOS /\ TESTE row = Some true) confirmados tc
    /\ Forall2 (fun (_ : RawRow) (row : Row string) =>
                  FONTE row = DESCARTADOS /\ TESTE row = Some true) descartados td
    /\ Forall2 (fun (raw : RawRow) (row : Row string) =>
                  FONTE row = SUSPEITOS
                  /\ (TESTE row = Some true \/ TESTE row = Some false)
                  /\ (TESTE row = Some true <->
                      (raw_TIPO_DE_TESTE raw <> None
                       \/ raw_DATA_DA_COLETA_DO_TESTE raw <> None
                       \/ raw_RESULTADO_DO_TESTE raw <> None)
                      /\ raw_ESTADO_DO_TESTE raw <> Some EXAME_NAO_SOLICITADO)
                  /\ (raw_ESTADO_DO_TESTE raw = Some EXAME_NAO_SOLICITADO ->
                      TESTE row = Some false)) suspeitos ts.
Proof.
  eexists _, _, _. split; [reflexivity|].
  split; [|split].
  - rewrite map_map. apply Forall2_map_diag. intros r; simpl; auto.
  - rewrite map_map. apply Forall2_map_diag. intros r; simpl; auto.
  - rewrite map_map. apply Forall2_map_diag. intros r. apply teste_suspeito_spec.
Qed.

Example teste_override :
  TESTE (Reconciler.colunas_interessantes
           (Reconciler.marcar_suspeito
              (Exemplo.suspeito "02/01/2021" "ITABUNA" (Some "RT-PCR")
                 (Some "EXAME NAO SOLICITADO"))))
  = Some false.
Proof. reflexivity. Qed.

Example teste_sem_indicio :
  TESTE (Reconciler.colunas_interessantes
           (Reconciler.marcar_suspeito (Exemplo.suspeito "02/01/2021" "ITABUNA" None None)))
  = Some false.
Proof. reflexivity. Qed.

(** ** The invariant of the reconciled table *)

Lemma combinar_teste (c d s : list RawRow) (r : Row string) :
  In r (Reconciler.combinar c d s) -> exists b, TESTE r = Some b.
Proof.
  unfold Reconciler.combinar. rewrite !in_app_iff, !map_map, !in_map_iff.
  intros [[x [<- _]]|[[x [<- _]]|[x [<- _]]]]; simpl; eauto.
Qed.

Lemma ano_valido_true (r : Row Date) :
  Reconciler.ano_valido r = true <->
  exists dt, DATA_DA_NOTIFICACAO r = Some dt /\ (2020 <= year dt)%Z.
Proof.
  unfold Reconciler.ano_valido. destruct (DATA_DA_NOTIFICACAO r) as [dt|].
  - rewrite Z.leb_le. split.
    + intros H. exists dt. auto.
    + intros [dt' [Heq H]]. congruence.
  - split; [congruence|]. intros [dt [Heq _]]. congruence.
Qed.

Lemma apenas_testados_In (t t' : DataFrame) :
  apenas_testados t = Ok t' ->
  forall r, In r t' <-> In r t /\ TESTE r = Some true.
Proof.
  unfold apenas_testados. destruct (forallb _ t); [|congruence].
  intros [= <-] r. rewrite filter_In.
  destruct (TESTE r) as [[|]|]; intuition congruence.
Qed.

Lemma apenas_testados_Ok (t : DataFrame) :
  Forall (fun r => exists b, TESTE r = Some b) t ->
  exists t', apenas_testados t = Ok t'.
Proof.
  intros H. unfold apenas_testados.
  assert (Hall : forallb (fun r => notnull (TESTE r)) t = true).
  { apply forallb_forall. intros r Hr.
    rewrite List.Forall_forall in H. destruct (H r Hr) as [b ->]. reflexivity. }
  rewrite Hall. eauto.
Qed.

Lemma filtrar_cidade_In (cidade : string) (t : DataFrame) (r : Row Date) :
  In r (filtrar_cidade cidade t) <->
  In r t /\ MUNICIPIO_DE_RESIDENCIA r = Some cidade.
Proof.
  unfold filtrar_cidade. rewrite filter_In, cell_eqb_true. tauto.
Qed.

Section ReconcilerFacts.

Variable to_datetime : list string -> option (list (option Date)).

Lemma converter_datas_teste (t : list (Row string)) (t' : DataFrame) :
  Reconciler.converter_datas to_datetime t = Ok t' ->
  forall r', In r' t' -> exists r, In r t /\ TESTE r' = TESTE r.
Proof.
  unfold Reconciler.converter_datas.
  destruct (to_datetime _) as [ds|]; [|congruence].
  destruct (Nat.eqb _ _); [|congruence].
  intros [= <-] r' Hin. apply in_map_iff in Hin as [[r d] [<- Hin]].
  exists r. split; [|reflexivity]. eapply in_combine_l; eauto.
Qed.

(** The reconciler returns a table as soon as the date conversion returns
    one cell per dated line. *)
Lemma reconciliar_returns (c d s : list RawRow) (ds : list (option Date)) :
  to_datetime (Reconciler.coluna_data (Reconciler.com_data (Reconciler.combinar c d s))) = Some ds ->
  length ds = length (Reconciler.com_data (Reconciler.combinar c d s)) ->
  exists t, Reconciler.reconciliar to_datetime c d s = Ok t.
Proof.
  intros Hds Hlen. unfold Reconciler.reconciliar, Reconciler.converter_datas.
  rewrite Hds, Hlen, Nat.eqb_refl. eauto.
Qed.

(** C2. Every line of a table the reconciler returns has a boolean [TESTE]
    and a notification date of year 2020 or later (lines without a date or
    with an earlier year are gone); the report stage then selects lines on
    [TESTE] and on the municipality only, never on the date. *)
Theorem reconciled_invariant (c d s : list RawRow) (t : DataFrame) :
  Reconciler.reconciliar to_datetime c d s = Ok t ->
  Forall (fun r => (exists b, TESTE r = Some b)
                   /\ exists dt, DATA_DA_NOTIFICACAO r = Some dt /\ (2020 <= year dt)%Z) t
  /\ (exists t', apenas_testados t = Ok t'
       /\ (forall r, In r t' <-> In r t /\ TESTE r = Some true)
       /\ (forall cidade r, In r (filtrar_cidade cidade t') <->
             In r t /\ TESTE r = Some true /\ MUNICIPIO_DE_RESIDENCIA r = Some cidade)).
Proof.
  unfold Reconciler.reconciliar.
  destruct (Reconciler.converter_datas _ _) as [t0|e] eqn:Hconv; [|congruence].
  intros [= <-].
  assert (Hinv : Forall (fun r => (exists b, TESTE r = Some b)
             /\ exists dt, DATA_DA_NOTIFICACAO r = Some dt /\ (2020 <= year dt)%Z)
             (List.filter Reconciler.ano_valido t0)).
  { apply List.Forall_forall. intros r Hr. apply filter_In in Hr as [Hin Hano].
    split; [|apply ano_valido_true; exact Hano].
    destruct (converter_datas_teste _ _ Hconv r Hin) as [r0 [Hin0 ->]].
    unfold Reconciler.com_data in Hin0. apply filter_In in Hin0 as [Hin0 _].
    eapply combinar_teste; eauto. }
  split; [exact Hinv|].
  destruct (apenas_testados_Ok (List.filter Reconciler.ano_valido t0)) as [t' Ht'].
  { eapply List.Forall_impl; [|exact Hinv]. intros r [Hb _]. exact Hb. }
  exists t'. split; [exact Ht'|]. split.
  - apply apenas_testados_In. exact Ht'.
  - intros cidade r. rewrite filtrar_cidade_In, (apenas_testados_In _ _ Ht'). tauto.
Qed.

End ReconcilerFacts.

Lemma reconciled_invariant_witness :
  Forall (fun r => (exists b, TESTE r = Some b)
                   /\ exists dt, DATA_DA_NOTIFICACAO r = Some dt /\ (2020 <= year dt)%Z)
         Exemplo.base
  /\ length Exemplo.base = 10.
Proof.
  split; [|reflexivity].
  apply (reconciled_invariant Calendar.to_datetime_dmY
           Exemplo.confirmados Exemplo.descartados Exemplo.suspeitos Exemplo.base).
  reflexivity.
Defined.

Example strptime_leap_day :
  Calendar.strptime_dmY "29/02/2020" = Some (mkDate 2020 2 29).
Proof. reflexivity. Qed.

Example strptime_no_such_day : Calendar.strptime_dmY "29/02/2021" = None.
Proof. reflexivity. Qed.

Example ordinal_2021_01_01 : Calendar.ordinal (mkDate 2021 1 1) = 18628%Z.
Proof. reflexivity. Qed.

(** The nine-line scenario: seven tested lines, two untested. *)
Example cenario_de_nove_linhas :
  exists t t',
    Reconciler.reconciliar Calendar.to_datetime_dmY Exemplo.cenario_confirmados
      Exemplo.cenario_descartados Exemplo.cenario_suspeitos = Ok t
    /\ length t = 9
    /\ apenas_testados t = Ok t'
    /\ length t' = 7
    /\ length (filtrar_cidade "ITABUNA" t') = 7.
Proof. eexists _, _. repeat split; reflexivity. Qed.

(** ** Effects of the report stage *)

Lemma set_cwd_id (w : World) : set_cwd (cwd w) w = w.
Proof. destruct w; reflexivity. Qed.

Lemma report_effect_ret {A} (a : A) : report_effect (ret a).
Proof.
  intros w. simpl. split; [reflexivity|].
  split; exists []; rewrite app_nil_r; auto.
Qed.

Lemma report_effect_raise {A} (e : exn) : report_effect (@raise A e).
Proof.
  intros w. simpl. split; [reflexivity|].
  split; exists []; rewrite app_nil_r; auto.
Qed.

Lemma report_effect_emit (e : event) : is_report_event e -> report_effect (emit e).
Proof.
  intros He w. simpl. split; [reflexivity|]. split.
  - exists []. rewrite app_nil_r. reflexivity.
  - exists [e]. auto.
Qed.

Lemma report_effect_alloc (t : DataFrame) : report_effect (alloc t).
Proof.
  intros w. simpl. split; [reflexivity|]. split.
  - exists [t]. reflexivity.
  - exists []. rewrite app_nil_r. auto.
Qed.

Lemma report_effect_deref (l : loc) : report_effect (deref l).
Proof.
  intros w. unfold deref. destruct (heap w !! l); simpl;
    (split; [reflexivity|]; split; exists []; rewrite app_nil_r; auto).
Qed.

Lemma report_effect_lift {A} (o : outcome A) : report_effect (lift o).
Proof. destruct o; [apply report_effect_ret|apply report_effect_raise]. Qed.

Lemma report_effect_bind {A B} (m : M A) (k : A -> M B) :
  report_effect m -> (forall a, report_effect (k a)) -> report_effect (bind m k).
Proof.
  intros Hm Hk w. unfold bind. specialize (Hm w).
  destruct (m w) as [[a|e] w1]; simpl in *; [|exact Hm].
  destruct Hm as (Hc & [ts Hh] & [evs [Ht Hf]]).
  destruct (Hk a w1) as (Hc' & [ts' Hh'] & [evs' [Ht' Hf']]).
  split; [congruence|]. split.
  - exists (ts ++ ts'). rewrite Hh', Hh, app_assoc. reflexivity.
  - exists (evs ++ evs'). rewrite Ht', Ht, app_assoc. split; [reflexivity|].
    apply Forall_app; auto.
Qed.

Lemma cwd_frame_ret {A} (a : A) : cwd_frame (ret a).
Proof. intros w c. reflexivity. Qed.

Lemma cwd_frame_raise {A} (e : exn) : cwd_frame (@raise A e).
Proof. intros w c. reflexivity. Qed.

Lemma cwd_frame_emit (e : event) : cwd_frame (emit e).
Proof. intros w c. reflexivity. Qed.

Lemma cwd_frame_alloc (t : DataFrame) : cwd_frame (alloc t).
Proof. intros w c. reflexivity. Qed.

Lemma cwd_frame_deref (l : loc) : cwd_frame (deref l).
Proof. intros w c. unfold deref. simpl. destruct (heap w !! l); reflexivity. Qed.

Lemma cwd_frame_lift {A} (o : outcome A) : cwd_frame (lift o).
Proof. destruct o; [apply cwd_frame_ret|apply cwd_frame_raise]. Qed.

Lemma cwd_frame_bind {A B} (m : M A) (k : A -> M B) :
  cwd_frame m -> (forall a, cwd_frame (k a)) -> cwd_frame (bind m k).
Proof.
  intros Hm Hk w c. unfold bind. rewrite Hm.
  destruct (m w) as [[a|e] w1]; simpl; [apply Hk|reflexivity].
Qed.

Create HintDb effects.

#[local] Hint Resolve
  report_effect_ret report_effect_raise report_effect_emit report_effect_alloc
  report_effect_deref report_effect_lift
  cwd_frame_ret cwd_frame_raise cwd_frame_emit cwd_frame_alloc cwd_frame_deref
  cwd_frame_lift : effects.

#[local] Hint Extern 1 (is_report_event _) => exact I : effects.

Ltac effects_step :=
  first [ apply report_effect_bind; [|intros ?]
        | apply cwd_frame_bind; [|intros ?] ].

Lemma plotar_corpo_report_effect t cidade data janela interativo :
  report_effect (plotar_corpo t cidade data janela interativo).
Proof.
  unfold plotar_corpo, print.
  destruct (Nat.eqb _ 0); [auto with effects|].
  destruct (fora_dos_limites t); [auto with effects|].
  destruct (janela <? 0)%Z; [auto with effects|].
  cbv zeta.
  destruct (chart_tests _); [auto with effects|].
  destruct (chart_confirmado _); [auto with effects|].
  destruct interativo; auto with effects.
Qed.

Lemma plotar_corpo_cwd_frame t cidade data janela interativo :
  cwd_frame (plotar_corpo t cidade data janela interativo).
Proof.
  unfold plotar_corpo, print.
  destruct (Nat.eqb _ 0); [auto with effects|].
  destruct (fora_dos_limites t); [auto with effects|].
  destruct (janela <? 0)%Z; [auto with effects|].
  cbv zeta.
  destruct (chart_tests _); [auto with effects|].
  destruct (chart_confirmado _); [auto with effects|].
  destruct interativo; auto with effects.
Qed.

Lemma selecionar_cidade_report_effect l cidade :
  report_effect (selecionar_cidade l cidade).
Proof.
  unfold selecionar_cidade. destruct (negb _); [|auto with effects].
  effects_step; auto with effects.
Qed.

Lemma selecionar_cidade_cwd_frame l cidade :
  cwd_frame (selecionar_cidade l cidade).
Proof.
  unfold selecionar_cidade. destruct (negb _); [|auto with effects].
  effects_step; auto with effects.
Qed.

Lemma plotar_report_effect l cidade data janela interativo :
  report_effect (plotar_testes_por_cidade l cidade data janela interativo).
Proof.
  unfold plotar_testes_por_cidade.
  effects_step; [apply selecionar_cidade_report_effect|].
  effects_step; [auto with effects|apply plotar_corpo_report_effect].
Qed.

Lemma plotar_cwd_frame l cidade data janela interativo :
  cwd_frame (plotar_testes_por_cidade l cidade data janela interativo).
Proof.
  unfold plotar_testes_por_cidade.
  effects_step; [apply selecionar_cidade_cwd_frame|].
  effects_step; [auto with effects|apply plotar_corpo_cwd_frame].
Qed.

Lemma relatorios_report_effect l data janela interativo cidades :
  report_effect (relatorios l data janela interativo cidades).
Proof.
  induction cidades as [|cidade resto IH]; simpl; [auto with effects|].
  effects_step; [unfold print; auto with effects|].
  effects_step; [apply plotar_report_effect|exact IH].
Qed.

Lemma relatorios_cwd_frame l data janela interativo cidades :
  cwd_frame (relatorios l data janela interativo cidades).
Proof.
  induction cidades as [|cidade resto IH]; simpl; [auto with effects|].
  effects_step; [unfold print; auto with effects|].
  effects_step; [apply plotar_cwd_frame|exact IH].
Qed.

Lemma relatar_report_effect t data args : report_effect (relatar t data args).
Proof.
  unfold relatar. effects_step; [auto with effects|].
  effects_step; [auto with effects|apply relatorios_report_effect].
Qed.

Lemma relatar_cwd_frame t data args : cwd_frame (relatar t data args).
Proof.
  unfold relatar. effects_step; [auto with effects|].
  effects_step; [auto with effects|apply relatorios_cwd_frame].
Qed.

Lemma relatar_frame_report_effect c data args : report_effect (relatar_frame c data args).
Proof.
  destruct c as [t [|]]; cbn [relatar_frame]; [apply relatar_report_effect|].
  effects_step; auto with effects.
Qed.

Lemma relatar_frame_cwd_frame c data args : cwd_frame (relatar_frame c data args).
Proof.
  destruct c as [t [|]]; cbn [relatar_frame]; [apply relatar_cwd_frame|].
  effects_step; auto with effects.
Qed.

(** An object of the store is never changed by a computation that only
    adds objects. *)
Lemma report_effect_lookup {A} (m : M A) (w : World) (l : loc) (t : DataFrame) :
  report_effect m -> heap w !! l = Some t -> heap (snd (m w)) !! l = Some t.
Proof.
  intros Hm Hl. destruct (Hm w) as (_ & [ts ->] & _).
  apply lookup_app_l_Some. exact Hl.
Qed.

(** ** The script on the sample folder *)

Example data_do_arquivo_example :
  data_do_arquivo Exemplo.arq_confirmados = "2021-01-05"
  /\ chave_do_arquivo Exemplo.arq_confirmados = "CONFIRMADOS"
  /\ nome_do_plot "PORTO SEGURO" "2021-01-05" = "plot_PORTO_SEGURO_2021-01-05.png".
Proof. repeat split; reflexivity. Qed.

(** A first run writes the cache and reports the three requested names. *)
Example main_first_run :
  let r := main Calendar.to_datetime_dmY Exemplo.args (Exemplo.mundo Exemplo.pasta_nova) in
  fst r = Ok tt
  /\ cwd (snd r) = Exemplo.pasta_com_base
  /\ heap (snd r) !! 0 = Some Exemplo.testados
  /\ length (trace (snd r)) = 12.
Proof. repeat split; reflexivity. Qed.

(** ** The cache *)

(** What is left of the script once the cache file has been read. *)
Lemma main_cache_hit (to_datetime : ToDatetime) (args : Args) (w : World) (a : string) (resto : list string) (f : File) :
  List.filter (Str.startswith PADRAO_ARQUIVOS) (map fst (cwd w)) = a :: resto ->
  Dict.get (nome_da_base (data_do_arquivo a)) (cwd w) = Some f ->
  main to_datetime args w =
  bind (match f with
        | FTable t => ret (t, match t with [] => false | _ :: _ => true end)
        | FRaw _ => raise (ValueError "Missing column provided to 'parse_dates': 'DATA DA NOTIFICACAO'")
        end)
       (fun c => relatar_frame c (data_do_arquivo a) args)
       (add_trace [Print (nl ++ "Carregando base de dados." ++ nl);
                   ReadCsv (nome_da_base (data_do_arquivo a))] w).
Proof.
  intros Hglob Hget.
  unfold main, bind at 1, glob. cbn [fst snd]. rewrite Hglob.
  unfold bind at 1, ret at 1. unfold bind at 1, path_exists. rewrite Hget.
  cbn [notnull negb]. unfold bind at 1, carregar_base, bind at 1, print, emit.
  unfold bind at 1, read_csv. cbn [cwd heap trace]. rewrite Hget.
  unfold add_trace. rewrite <- app_assoc. cbn [app].
  unfold bind. destruct f; reflexivity.
Qed.

(** C3. When the cache file of the extraction date exists, the folder is
    left as it was (nothing is written), the only file read is the cache,
    no reconciliation event occurs, the DataFrame handed to the reports is
    the cached table restricted to its tested lines, and the run is the
    same for any other content of the other files and for any date
    conversion. *)
Theorem cache_hit_skips_reconciliation (to_datetime : ToDatetime)
    (args : Args) (w : World) (a : string) (resto : list string) (f : File) :
  List.filter (Str.startswith PADRAO_ARQUIVOS) (map fst (cwd w)) = a :: resto ->
  Dict.get (nome_da_base (data_do_arquivo a)) (cwd w) = Some f ->
  cwd (snd (main to_datetime args w)) = cwd w
  /\ (exists evs,
        trace (snd (main to_datetime args w)) =
        trace w ++ Print (nl ++ "Carregando base de dados." ++ nl)
                :: ReadCsv (nome_da_base (data_do_arquivo a)) :: evs
        /\ Forall is_report_event evs)
  /\ (forall t t', f = FTable t -> apenas_testados t = Ok t' ->
        heap (snd (main to_datetime args w)) !! length (heap w) = Some t')
  /\ (forall w2,
        map fst (cwd w2) = map fst (cwd w) ->
        Dict.get (nome_da_base (data_do_arquivo a)) (cwd w2) = Some f ->
        heap w2 = heap w -> trace w2 = trace w ->
        fst (main to_datetime args w2) = fst (main to_datetime args w)
        /\ trace (snd (main to_datetime args w2)) = trace (snd (main to_datetime args w))
        /\ heap (snd (main to_datetime args w2)) = heap (snd (main to_datetime args w))
        /\ cwd (snd (main to_datetime args w2)) = cwd w2)
  /\ (forall to_datetime', main to_datetime' args w = main to_datetime args w).
Proof.
  intros Hglob Hget.
  set (evs0 := [Print (nl ++ "Carregando base de dados." ++ nl);
                ReadCsv (nome_da_base (data_do_arquivo a))]).
  set (resto_do_script := bind (match f with
        | FTable t => ret (t, match t with [] => false | _ :: _ => true end)
        | FRaw _ => raise (ValueError "Missing column provided to 'parse_dates': 'DATA DA NOTIFICACAO'")
        end) (fun c => relatar_frame c (data_do_arquivo a) args)).
  assert (Hmain : main to_datetime args w = resto_do_script (add_trace evs0 w)).
  { apply (main_cache_hit to_datetime args w a resto f Hglob Hget). }
  assert (Heff : report_effect resto_do_script).
  { apply report_effect_bind.
    - destruct f; auto with effects.
    - intros c. apply relatar_frame_report_effect. }
  assert (Hframe : cwd_frame resto_do_script).
  { apply cwd_frame_bind.
    - destruct f; auto with effects.
    - intros c. apply relatar_frame_cwd_frame. }
  destruct (Heff (add_trace evs0 w)) as (Hcwd & [ts Hheap] & [evs [Htrace Hevs]]).
  split; [|split; [|split; [|split]]].
  - rewrite Hmain. exact Hcwd.
  - exists evs. rewrite Hmain, Htrace. simpl. rewrite <- app_assoc. auto.
  - intros t t' -> Ht'. rewrite Hmain.
    unfold resto_do_script, bind at 1, ret at 1. destruct t as [|r t].
    + injection Ht' as <-. cbn [relatar_frame]. unfold bind, alloc, raise.
      cbn [snd heap add_trace]. rewrite lookup_app_r by lia.
      rewrite Nat.sub_diag. reflexivity.
    + cbn [relatar_frame]. unfold relatar, bind at 1.
      rewrite Ht'. cbn [lift]. unfold ret at 1, bind at 1, alloc.
      cbn [heap add_trace cwd trace].
      apply (report_effect_lookup _ _ _ _ (relatorios_report_effect _ _ _ _ _)).
      cbn [heap]. rewrite lookup_app_r by lia. rewrite Nat.sub_diag. reflexivity.
  - intros w2 Hnames Hget2 Hheap2 Htrace2.
    rewrite Hmain. rewrite (main_cache_hit to_datetime args w2 a resto f); [|congruence|assumption].
    fold evs0. fold resto_do_script.
    replace (add_trace evs0 w2) with (set_cwd (cwd w2) (add_trace evs0 w)).
    + rewrite Hframe. cbn [fst snd set_cwd cwd heap trace]. auto.
    + unfold set_cwd, add_trace. cbn [cwd heap trace]. destruct w2; simpl in *; congruence.
  - intros to_datetime'. rewrite Hmain.
    apply (main_cache_hit to_datetime' args w a resto f Hglob Hget).
Qed.

Lemma cache_hit_skips_reconciliation_witness :
  cwd (snd (main Calendar.to_datetime_dmY Exemplo.args
              (Exemplo.mundo Exemplo.pasta_com_base)))
  = Exemplo.pasta_com_base.
Proof.
  exact (proj1 (cache_hit_skips_reconciliation Calendar.to_datetime_dmY Exemplo.args
                  (Exemplo.mundo Exemplo.pasta_com_base)
                  Exemplo.arq_confirmados
                  [Exemplo.arq_descartados; Exemplo.arq_suspeitos]
                  (FTable Exemplo.base) eq_refl eq_refl)).
Defined.

(** ** The municipality filter *)

Lemma plotar_bahia (l : loc) (t : DataFrame) (data : string) (janela : Z)
    (interativo : bool) (w : World) :
  heap w !! l = Some t ->
  plotar_testes_por_cidade l BAHIA data janela interativo w
  = plotar_corpo t BAHIA data janela interativo w.
Proof.
  intros Hl. unfold plotar_testes_por_cidade, selecionar_cidade.
  rewrite String.eqb_refl. cbn [negb].
  unfold bind, ret, deref. rewrite Hl. reflexivity.
Qed.

Lemma plotar_cidade (l : loc) (t : DataFrame) (cidade data : string) (janela : Z)
    (interativo : bool) (w : World) :
  heap w !! l = Some t -> cidade <> BAHIA ->
  plotar_testes_por_cidade l cidade data janela interativo w
  = plotar_corpo (filtrar_cidade cidade t) cidade data janela interativo
      (add_heap [filtrar_cidade cidade t] w).
Proof.
  intros Hl Hne. apply String.eqb_neq in Hne.
  unfold plotar_testes_por_cidade, selecionar_cidade. rewrite Hne. cbn [negb].
  unfold bind, deref, alloc. rewrite Hl. cbn [heap].
  rewrite lookup_app_r by lia. rewrite Nat.sub_diag. reflexivity.
Qed.

(** C7. With the name "BAHIA" the report is computed on every line of the
    table it receives; with any other name it is computed on the lines
    whose municipality is exactly that text, in their order.  [N] is the
    number of those lines: it is 0 exactly when the diagnostic is printed,
    and it is the total written on the figure.  A call on a selection with
    lines either saves or shows the figure made from those lines, which it
    does when the index is within bounds, the window is not negative and
    both filtered series have a day to draw, or raises and leaves no
    event. *)
Theorem municipality_selection (l : loc) (t : DataFrame) (cidade data : string)
    (janela : Z) (interativo : bool) (w : World) :
  heap w !! l = Some t ->
  (cidade = BAHIA ->
     plotar_testes_por_cidade l cidade data janela interativo w
     = plotar_corpo t cidade data janela interativo w)
  /\ (cidade <> BAHIA ->
     plotar_testes_por_cidade l cidade data janela interativo w
     = plotar_corpo (filtrar_cidade cidade t) cidade data janela interativo
         (add_heap [filtrar_cidade cidade t] w))
  /\ (forall r, In r (filtrar_cidade cidade t) <->
                In r t /\ MUNICIPIO_DE_RESIDENCIA r = Some cidade)
  /\ (forall sel cidade' data' w0,
        chart_total (montar_figura w0 sel cidade' data') = length sel)
  /\ (forall sel w', sel <> [] -> fora_dos_limites sel = false -> (0 <= janela)%Z ->
        chart_tests (montar_figura (Z.to_nat janela) sel cidade data) <> [] ->
        chart_confirmado (montar_figura (Z.to_nat janela) sel cidade data) <> [] ->
        plotar_corpo sel cidade data janela interativo w'
        = (Ok tt,
           add_trace [if interativo
                      then Show (montar_figura (Z.to_nat janela) sel cidade data)
                      else SaveFig (nome_do_plot cidade data)
                             (montar_figura (Z.to_nat janela) sel cidade data)] w'))
  /\ (forall sel w' o w'',
        plotar_corpo sel cidade data janela interativo w' = (o, w'') ->
        (sel = [] /\ o = Ok tt /\ w'' = add_trace [Print MSG_NENHUM_REGISTRO] w')
        \/ (sel <> [] /\ o = Ok tt
            /\ w'' = add_trace [if interativo
                                then Show (montar_figura (Z.to_nat janela) sel cidade data)
                                else SaveFig (nome_do_plot cidade data)
                                       (montar_figura (Z.to_nat janela) sel cidade data)] w')
        \/ (sel <> [] /\ w'' = w' /\ exists e, o = Raise e))
  /\ (forall sel w', sel = [] ->
        plotar_corpo sel cidade data janela interativo w'
        = (Ok tt, add_trace [Print MSG_NENHUM_REGISTRO] w')).
Proof.
  intros Hl. split; [|split; [|split; [|split; [|split; [|split]]]]].
  - intros ->. apply plotar_bahia. exact Hl.
  - intros Hne. apply plotar_cidade; assumption.
  - intros r. apply filtrar_cidade_In.
  - intros sel cidade' data' w0. reflexivity.
  - intros sel w' Hsel Hfora Hj Ht Hc.
    unfold plotar_corpo. destruct sel as [|r sel]; [congruence|].
    cbn [length Nat.eqb]. rewrite Hfora. apply Z.ltb_ge in Hj. rewrite Hj. cbv zeta.
    destruct (chart_tests _); [congruence|].
    destruct (chart_confirmado _); [congruence|].
    destruct interativo; reflexivity.
  - intros sel w' o w'' Hrun. unfold plotar_corpo in Hrun.
    destruct sel as [|r sel].
    { left. cbn in Hrun. injection Hrun as <- <-. auto. }
    right. cbn [length Nat.eqb] in Hrun.
    assert (Hne : r :: sel <> []) by congruence.
    destruct (fora_dos_limites (r :: sel)).
    { right. injection Hrun as <- <-. eauto. }
    destruct (janela <? 0)%Z.
    { right. injection Hrun as <- <-. eauto. }
    cbv zeta in Hrun.
    destruct (chart_tests _).
    { right. injection Hrun as <- <-. eauto. }
    destruct (chart_confirmado _).
    { right. injection Hrun as <- <-. eauto. }
    left. destruct interativo; injection Hrun as <- <-; auto.
  - intros sel w' ->. reflexivity.
Qed.

Lemma municipality_selection_witness :
  plotar_testes_por_cidade 0 "ILHEUS" "2021-01-05" 1 false Exemplo.mundo_com_tabela
  = plotar_corpo (filtrar_cidade "ILHEUS" Exemplo.testados) "ILHEUS" "2021-01-05" 1 false
      (add_heap [filtrar_cidade "ILHEUS" Exemplo.testados] Exemplo.mundo_com_tabela)
  /\ length (filtrar_cidade "ILHEUS" Exemplo.testados) = 1
  /\ plotar_corpo (filtrar_cidade "ITABUNA" Exemplo.testados) "ITABUNA" "2021-01-05" 1 false
       Exemplo.mundo_com_tabela
     = (Ok tt,
        add_trace [SaveFig "plot_ITABUNA_2021-01-05.png"
                     (montar_figura 1 (filtrar_cidade "ITABUNA" Exemplo.testados)
                        "ITABUNA" "2021-01-05")]
          Exemplo.mundo_com_tabela)
  /\ chart_total (montar_figura 1 (filtrar_cidade "ITABUNA" Exemplo.testados)
                    "ITABUNA" "2021-01-05") = 7.
Proof.
  pose proof (municipality_selection 0 Exemplo.testados "ITABUNA" "2021-01-05" 1 false
                Exemplo.mundo_com_tabela eq_refl) as (_ & _ & _ & _ & Hfig & _).
  split; [|split; [reflexivity|split; [|reflexivity]]].
  - apply (proj1 (proj2
      (municipality_selection 0 Exemplo.testados "ILHEUS" "2021-01-05" 1 false
         Exemplo.mundo_com_tabela eq_refl))).
    discriminate.
  - apply (Hfig (filtrar_cidade "ITABUNA" Exemplo.testados) Exemplo.mundo_com_tabela).
    + vm_compute. discriminate.
    + reflexivity.
    + lia.
    + vm_compute. discriminate.
    + vm_compute. discriminate.
Defined.

(** The municipality of one tested line, window 1: the only daily count is
    1, the filter leaves nothing to draw and line 170 raises. *)
Example plotar_serie_vazia :
  fst (plotar_testes_por_cidade 0 "ILHEUS" "2021-01-05" 1 false Exemplo.mundo_com_tabela)
  = Raise (ValueError MSG_SERIE_VAZIA).
Proof. reflexivity. Qed.

(** Lines dated 2262-04-11: the daily bins of line 158 would end on a day
    that a timestamp cannot hold. *)
Example plotar_fora_dos_limites :
  fst (plotar_corpo Exemplo3.ultimo_dia "ITABUNA" "2262-04-11" 1 false
         Exemplo.mundo_com_tabela)
  = Raise (ValueError MSG_FORA_DOS_LIMITES).
Proof. reflexivity. Qed.

(** ** A municipality without lines *)

Lemma plotar_sem_registros (l : loc) (t : DataFrame) (cidade data : string)
    (janela : Z) (interativo : bool) (w : World) :
  heap w !! l = Some t ->
  length (if String.eqb cidade BAHIA then t else filtrar_cidade cidade t) = 0 ->
  exists w1,
    plotar_testes_por_cidade l cidade data janela interativo w = (Ok tt, w1)
    /\ trace w1 = trace w ++ [Print MSG_NENHUM_REGISTRO]
    /\ cwd w1 = cwd w
    /\ heap w1 !! l = Some t.
Proof.
  intros Hl HN. destruct (String.eqb cidade BAHIA) eqn:Hc.
  - apply String.eqb_eq in Hc. subst cidade.
    apply length_zero_iff_nil in HN. subst t.
    exists (add_trace [Print MSG_NENHUM_REGISTRO] w).
    rewrite (plotar_bahia l [] data janela interativo w Hl). auto.
  - apply String.eqb_neq in Hc. apply length_zero_iff_nil in HN.
    exists (add_trace [Print MSG_NENHUM_REGISTRO] (add_heap [filtrar_cidade cidade t] w)).
    rewrite (plotar_cidade l t cidade data janela interativo w Hl Hc), HN.
    repeat split. cbn [add_trace add_heap heap]. apply lookup_app_l_Some. exact Hl.
Qed.

Lemma relatorios_cons (l : loc) (data : string) (janela : Z) (interativo : bool)
    (cidade : string) (resto : list string) (w : World) :
  relatorios l data janela interativo (cidade :: resto) w
  = bind (plotar_testes_por_cidade l cidade data janela interativo)
         (fun _ => relatorios l data janela interativo resto)
         (add_trace [Print ("Plotando gráficos para a cidade: " ++ cidade)] w).
Proof. reflexivity. Qed.

(** C4. A requested municipality with no line ([N = 0]) raises nothing:
    the call returns normally after printing the diagnostic, no figure is
    saved or shown, no file is touched, and the loop goes on with the
    remaining municipalities, in their order, on the same table. *)
Theorem empty_municipality_is_soft (l : loc) (t : DataFrame) (cidade data : string)
    (janela : Z) (interativo : bool) (resto : list string) (w : World) :
  heap w !! l = Some t ->
  length (if String.eqb cidade BAHIA then t else filtrar_cidade cidade t) = 0 ->
  (exists w1,
     plotar_testes_por_cidade l cidade data janela interativo w = (Ok tt, w1)
     /\ trace w1 = trace w ++ [Print MSG_NENHUM_REGISTRO]
     /\ cwd w1 = cwd w
     /\ heap w1 !! l = Some t)
  /\ (exists w2,
       relatorios l data janela interativo (cidade :: resto) w
       = relatorios l data janela interativo resto w2
       /\ trace w2 = trace w ++ [Print ("Plotando gráficos para a cidade: " ++ cidade);
                                 Print MSG_NENHUM_REGISTRO]
       /\ cwd w2 = cwd w
       /\ heap w2 !! l = Some t).
Proof.
  intros Hl HN. split; [apply plotar_sem_registros; assumption|].
  set (w0 := add_trace [Print ("Plotando gráficos para a cidade: " ++ cidade)] w).
  destruct (plotar_sem_registros l t cidade data janela interativo w0 Hl HN)
    as (w2 & Hrun & Htrace & Hcwd & Hheap).
  exists w2. split; [|split; [|split]].
  - rewrite relatorios_cons. fold w0. unfold bind. rewrite Hrun. reflexivity.
  - rewrite Htrace. unfold w0. cbn [add_trace trace]. rewrite <- app_assoc. reflexivity.
  - rewrite Hcwd. reflexivity.
  - exact Hheap.
Qed.

Lemma empty_municipality_is_soft_witness :
  exists w2,
    relatorios 0 "2021-01-05" 1 false ["XIQUE-XIQUE"; "ILHEUS"] Exemplo.mundo_com_tabela
    = relatorios 0 "2021-01-05" 1 false ["ILHEUS"] w2
    /\ trace w2 = [Print "Plotando gráficos para a cidade: XIQUE-XIQUE";
                   Print MSG_NENHUM_REGISTRO]
    /\ cwd w2 = Exemplo.pasta_com_base
    /\ heap w2 !! 0 = Some Exemplo.testados.
Proof.
  exact (proj2 (empty_municipality_is_soft 0 Exemplo.testados "XIQUE-XIQUE"
                  "2021-01-05" 1 false ["ILHEUS"] Exemplo.mundo_com_tabela
                  eq_refl eq_refl)).
Defined.

(** ** The table handed to the reports is shared and never changed *)

(** C10. The report function leaves every DataFrame object of the store as
    it found it: the table it receives is the same after the call, and
    after the whole loop, so each report of a batch starts from the same
    table. *)
Theorem report_keeps_table (l : loc) (t : DataFrame) (cidade data : string)
    (janela : Z) (interativo : bool) (cidades : list string) (w : World) :
  heap w !! l = Some t ->
  heap (snd (plotar_testes_por_cidade l cidade data janela interativo w)) !! l = Some t
  /\ (forall l' t', heap w !! l' = Some t' ->
        heap (snd (plotar_testes_por_cidade l cidade data janela interativo w)) !! l'
        = Some t')
  /\ heap (snd (relatorios l data janela interativo cidades w)) !! l = Some t
  /\ (exists w1,
       heap w1 !! l = Some t
       /\ (relatorios l data janela interativo (cidade :: cidades) w
           = relatorios l data janela interativo cidades w1
           \/ exists e, relatorios l data janela interativo (cidade :: cidades) w
                        = (Raise e, w1))).
Proof.
  intros Hl. split; [|split; [|split]].
  - apply report_effect_lookup; [apply plotar_report_effect|exact Hl].
  - intros l' t' Hl'. apply report_effect_lookup; [apply plotar_report_effect|exact Hl'].
  - apply report_effect_lookup; [apply relatorios_report_effect|exact Hl].
  - set (w0 := add_trace [Print ("Plotando gráficos para a cidade: " ++ cidade)] w).
    assert (Hl0 : heap w0 !! l = Some t) by exact Hl.
    pose proof (report_effect_lookup
                  (plotar_testes_por_cidade l cidade data janela interativo)
                  w0 l t (plotar_report_effect _ _ _ _ _) Hl0) as Hkeep.
    rewrite relatorios_cons. fold w0. unfold bind.
    destruct (plotar_testes_por_cidade l cidade data janela interativo w0)
      as [[[]|e] w1]; cbn [snd] in Hkeep; exists w1; split; eauto.
Qed.

Lemma report_keeps_table_witness :
  heap (snd (relatorios 0 "2021-01-05" 1 false ["ITABUNA"; "XIQUE-XIQUE"; "BAHIA"]
               Exemplo.mundo_com_tabela)) !! 0
  = Some Exemplo.testados.
Proof.
  exact (proj1 (proj2 (proj2
    (report_keeps_table 0 Exemplo.testados "ITABUNA" "2021-01-05" 1 false
       ["ITABUNA"; "XIQUE-XIQUE"; "BAHIA"] Exemplo.mundo_com_tabela eq_refl)))).
Defined.

(** ** The extraction date and the count of extracts *)

(** With at least one extract, no cache and a count other than three, the
    script stops with its message before doing anything else. *)
Lemma main_wrong_count_exits (to_datetime : ToDatetime) (args : Args) (w : World)
    (a : string) (resto : list string) :
  List.filter (Str.startswith PADRAO_ARQUIVOS) (map fst (cwd w)) = a :: resto ->
  Dict.get (nome_da_base (data_do_arquivo a)) (cwd w) = None ->
  length (a :: resto) <> 3 ->
  main to_datetime args w = (Raise (SystemExit MSG_NUMERO_DE_ARQUIVOS), w).
Proof.
  intros Hglob Hget Hlen.
  unfold main, bind at 1, glob. cbn [fst snd]. rewrite Hglob.
  unfold bind at 1, ret at 1. unfold bind at 1, path_exists. rewrite Hget.
  cbn [notnull negb]. unfold bind at 1, gerar_base.
  apply Nat.eqb_neq in Hlen. rewrite Hlen. reflexivity.
Qed.

Lemma main_wrong_count_exits_example :
  main Calendar.to_datetime_dmY Exemplo.args (Exemplo.mundo Exemplo.pasta_incompleta)
  = (Raise (SystemExit MSG_NUMERO_DE_ARQUIVOS), Exemplo.mundo Exemplo.pasta_incompleta).
Proof.
  apply (main_wrong_count_exits _ _ _ Exemplo.arq_confirmados [Exemplo.arq_suspeitos]);
    [reflexivity|reflexivity|simpl; lia].
Qed.

(** C9. Without any file matching "Banco Estadual COVID-19*" the script
    stops with an IndexError at line 232, before anything is printed, read
    or written and whatever else the folder holds (a cache included); the
    three-file message is therefore never reached in that case. *)
Theorem no_extract_raises_index_error (to_datetime : ToDatetime) (args : Args) (w : World) :
  List.filter (Str.startswith PADRAO_ARQUIVOS) (map fst (cwd w)) = [] ->
  main to_datetime args w = (Raise IndexError, w)
  /\ (forall msg, fst (main to_datetime args w) <> Raise (SystemExit msg)).
Proof.
  intros Hglob.
  assert (Hmain : main to_datetime args w = (Raise IndexError, w)).
  { unfold main, bind at 1, glob. cbn [fst snd]. rewrite Hglob. reflexivity. }
  split; [exact Hmain|]. intros msg. rewrite Hmain. cbn [fst]. congruence.
Qed.

Lemma no_extract_raises_index_error_witness :
  Dict.get "base-de-testes_2021-01-05.csv" Exemplo.pasta_so_base = Some (FTable Exemplo.base)
  /\ main Calendar.to_datetime_dmY Exemplo.args (Exemplo.mundo Exemplo.pasta_so_base)
     = (Raise IndexError, Exemplo.mundo Exemplo.pasta_so_base).
Proof.
  split; [reflexivity|].
  exact (proj1 (no_extract_raises_index_error Calendar.to_datetime_dmY Exemplo.args
                  (Exemplo.mundo Exemplo.pasta_so_base) eq_refl)).
Defined.

(** C8, at the input where the script departs from it: in a folder with no
    extract and no cache (no file at all), the count of extracts is zero,
    not three, and the script ends on an IndexError instead of the
    three-file message. *)
Theorem wrong_count_in_empty_folder (to_datetime : ToDatetime) (args : Args) :
  (forall nome, Dict.get nome (cwd (Exemplo.mundo [])) = None)
  /\ length (List.filter (Str.startswith PADRAO_ARQUIVOS)
               (map fst (cwd (Exemplo.mundo [])))) <> 3
  /\ main to_datetime args (Exemplo.mundo []) = (Raise IndexError, Exemplo.mundo [])
  /\ fst (main to_datetime args (Exemplo.mundo []))
     <> Raise (SystemExit MSG_NUMERO_DE_ARQUIVOS).
Proof.
  split; [reflexivity|]. split; [simpl; lia|]. split; [reflexivity|].
  cbn. congruence.
Qed.

(** ** Daily counts *)

Lemma valor_index_in {A} (f : Z -> A) (l : list Z) (d : Z) :
  In d l -> Series.valor d (map (fun x => (x, f x)) l) = Some (f d).
Proof.
  induction l as [|x l IH]; simpl; [tauto|].
  intros Hin. destruct (Z.eqb_spec x d) as [->|Hne]; [reflexivity|].
  destruct Hin as [Heq|Hin]; [congruence|auto].
Qed.

Lemma valor_index_notin {A} (f : Z -> A) (l : list Z) (d : Z) :
  ~ In d l -> Series.valor d (map (fun x => (x, f x)) l) = None.
Proof.
  induction l as [|x l IH]; simpl; [reflexivity|].
  intros Hnin. destruct (Z.eqb_spec x d) as [->|Hne]; [tauto|].
  apply IH. tauto.
Qed.

Lemma valor_Some_fst {A} (s : list (Z * A)) (d : Z) (v : A) :
  Series.valor d s = Some v -> In d (map fst s).
Proof.
  induction s as [|[x y] s IH]; simpl; [congruence|].
  destruct (Z.eqb_spec x d) as [->|Hne]; auto.
Qed.

Lemma valor_None_fst {A} (s : list (Z * A)) (d : Z) :
  Series.valor d s = None <-> ~ In d (map fst s).
Proof.
  induction s as [|[x y] s IH]; simpl; [tauto|].
  destruct (Z.eqb_spec x d) as [->|Hne].
  - split; [congruence|tauto].
  - rewrite IH. tauto.
Qed.

Lemma in_intervalo (lo hi d : Z) :
  In d (Series.intervalo lo hi) <-> (lo <= d <= hi)%Z.
Proof.
  unfold Series.intervalo. rewrite in_map_iff. split.
  - intros [i [<- Hi]]. apply in_seq in Hi. lia.
  - intros Hd. exists (Z.to_nat (d - lo)). split; [lia|].
    apply in_seq. lia.
Qed.

Lemma fold_min_le (d0 : Z) (ds : list Z) (x : Z) :
  In x (d0 :: ds) -> (fold_right Z.min d0 ds <= x)%Z.
Proof.
  induction ds as [|y ds IH]; simpl.
  - intros [<-|[]]. lia.
  - intros [<-|[<-|Hin]]; simpl in IH; [| |specialize (IH (or_intror Hin))]; lia.
Qed.

Lemma fold_max_ge (d0 : Z) (ds : list Z) (x : Z) :
  In x (d0 :: ds) -> (x <= fold_right Z.max d0 ds)%Z.
Proof.
  induction ds as [|y ds IH]; simpl.
  - intros [<-|[]]. lia.
  - intros [<-|[<-|Hin]]; simpl in IH; [| |specialize (IH (or_intror Hin))]; lia.
Qed.

Lemma fold_min_in (d0 : Z) (ds : list Z) : In (fold_right Z.min d0 ds) (d0 :: ds).
Proof.
  induction ds as [|y ds IH]; simpl; [auto|].
  destruct (Z.min_spec y (fold_right Z.min d0 ds)) as [[_ ->]|[_ ->]]; simpl in IH; tauto.
Qed.

Lemma fold_max_in (d0 : Z) (ds : list Z) : In (fold_right Z.max d0 ds) (d0 :: ds).
Proof.
  induction ds as [|y ds IH]; simpl; [auto|].
  destruct (Z.max_spec y (fold_right Z.max d0 ds)) as [[_ ->]|[_ ->]]; simpl in IH; tauto.
Qed.

(** A day has a bin exactly when it lies between two days of the index,
    and the bin holds the count of that day. *)
Lemma valor_resample_count (t : DataFrame) (d : Z) (n : nat) :
  Series.valor d (Series.resample_count t) = Some n <->
  n = Series.contar_dia t d
  /\ exists a b, In a (Series.dias t) /\ In b (Series.dias t) /\ (a <= d <= b)%Z.
Proof.
  unfold Series.resample_count. destruct (Series.dias t) as [|d0 ds] eqn:Hdias.
  - simpl. split; [congruence|]. intros [_ (a & _ & [] & _)].
  - set (lo := fold_right Z.min d0 ds). set (hi := fold_right Z.max d0 ds).
    destruct (in_dec Z.eq_dec d (Series.intervalo lo hi)) as [Hin|Hnin].
    + rewrite (valor_index_in _ _ _ Hin). apply in_intervalo in Hin. split.
      * intros [= <-]. split; [reflexivity|]. exists lo, hi.
        split; [apply fold_min_in|]. split; [apply fold_max_in|lia].
      * intros [-> _]. reflexivity.
    + rewrite (valor_index_notin _ _ _ Hnin). split; [congruence|].
      intros [_ (a & b & Ha & Hb & Hab)]. exfalso. apply Hnin, in_intervalo.
      pose proof (fold_min_le d0 ds a Ha). pose proof (fold_max_ge d0 ds b Hb).
      unfold lo, hi. lia.
Qed.

Lemma dias_filter (p : Row Date -> bool) (t : DataFrame) (d : Z) :
  In d (Series.dias (List.filter p t)) -> In d (Series.dias t).
Proof.
  unfold Series.dias. rewrite !in_flat_map.
  intros [r [Hr Hd]]. apply filter_In in Hr as [Hr _]. eauto.
Qed.

Lemma contar_dia_filter (p : Row Date -> bool) (t : DataFrame) (d : Z) :
  Series.contar_dia (List.filter p t) d <= Series.contar_dia t d.
Proof.
  unfold Series.contar_dia. induction t as [|r t IH]; simpl; [lia|].
  destruct (p r); simpl; destruct (Series.no_dia d r && notnull (TESTE r)); simpl; lia.
Qed.

(** C6. On every calendar day of the confirmed series, before rolling, the
    count of confirmed lines is at most the count of tested lines of the
    same table, and the day belongs to the tested series as well; the count
    of the confirmed lines of a day never exceeds the count of all lines
    of that day. *)
Theorem confirmed_le_tested_daily (t : DataFrame) (d : Z) (c : nat) :
  Series.valor d (Series.resample_count (apenas_confirmados t)) = Some c ->
  (exists n, Series.valor d (Series.resample_count t) = Some n /\ c <= n)
  /\ (forall d', Series.contar_dia (apenas_confirmados t) d' <= Series.contar_dia t d').
Proof.
  intros Hc. split; [|intros d'; apply contar_dia_filter].
  apply valor_resample_count in Hc as [-> (a & b & Ha & Hb & Hab)].
  exists (Series.contar_dia t d). split.
  - apply valor_resample_count. split; [reflexivity|].
    exists a, b. unfold apenas_confirmados in Ha, Hb.
    apply dias_filter in Ha, Hb. auto.
  - apply contar_dia_filter.
Qed.

Lemma confirmed_le_tested_daily_witness :
  exists n, Series.valor 18628 (Series.resample_count Exemplo.testados) = Some n /\ 2 <= n.
Proof.
  exact (proj1 (confirmed_le_tested_daily Exemplo.testados 18628 2 eq_refl)).
Defined.

(** ** The filter of the rolled series and the quotient *)

Lemma gt1_true (v : Q) : Series.gt1 v = true <-> (1 < v)%Q.
Proof.
  unfold Series.gt1. rewrite negb_true_iff. split.
  - intros H. apply Qnot_le_lt. intros Hle. apply Qle_bool_iff in Hle. congruence.
  - intros H. destruct (Qle_bool v 1) eqn:E; [|reflexivity].
    apply Qle_bool_iff in E. exfalso. exact (Qlt_not_le _ _ H E).
Qed.

Lemma in_maior_que_1 (s : list (Z * option Q)) (d : Z) (v : Q) :
  In (d, v) (Series.maior_que_1 s) <-> In (d, Some v) s /\ (1 < v)%Q.
Proof.
  unfold Series.maior_que_1. rewrite in_flat_map, <- gt1_true. split.
  - intros [[d' [q|]] [Hin Hx]]; [|destruct Hx].
    destruct (Series.gt1 q) eqn:Hq; [|destruct Hx].
    destruct Hx as [[= -> ->]|[]]. auto.
  - intros [Hin Hq]. exists (d, Some v). split; [exact Hin|].
    rewrite Hq. left. reflexivity.
Qed.

Lemma manter_gt1_maior_que_1 (s : list (Z * option Q)) :
  Series.manter_gt1 (Series.maior_que_1 s) = Series.maior_que_1 s.
Proof.
  unfold Series.manter_gt1, Series.maior_que_1.
  induction s as [|[d [q|]] s IH]; simpl; auto.
  destruct (Series.gt1 q) eqn:Hq; simpl; [|exact IH].
  rewrite Hq, IH. reflexivity.
Qed.

Lemma in_inserir_dia (d x : Z) (l : list Z) :
  In x (Series.inserir_dia d l) <-> x = d \/ In x l.
Proof.
  induction l as [|y l IH]; simpl; [intuition congruence|].
  destruct (Z.ltb_spec d y); [simpl; intuition congruence|].
  destruct (Z.eqb_spec d y) as [->|Hne]; simpl; [intuition congruence|].
  rewrite IH. intuition congruence.
Qed.

Lemma in_uniao (a b : list Z) (x : Z) :
  In x (Series.uniao a b) <-> In x a \/ In x b.
Proof.
  unfold Series.uniao. rewrite <- in_app_iff.
  induction (a ++ b) as [|y l IH]; simpl; [tauto|].
  rewrite in_inserir_dia, IH. intuition congruence.
Qed.

Lemma valor_dividir (a b : list (Z * Q)) (d : Z) :
  Series.valor d (Series.dividir a b) =
  match Series.valor d a, Series.valor d b with
  | Some x, Some y => Some (Some (x / y)%Q)
  | Some _, None | None, Some _ => Some None
  | None, None => None
  end.
Proof.
  unfold Series.dividir.
  destruct (Series.valor d a) as [x|] eqn:Ha, (Series.valor d b) as [y|] eqn:Hb.
  - rewrite valor_index_in; [rewrite Ha, ?Hb; reflexivity|].
    apply in_uniao. left. eapply valor_Some_fst; eauto.
  - rewrite valor_index_in; [rewrite Ha, ?Hb; reflexivity|].
    apply in_uniao. left. eapply valor_Some_fst; eauto.
  - rewrite valor_index_in; [rewrite Ha, ?Hb; reflexivity|].
    apply in_uniao. right. eapply valor_Some_fst; eauto.
  - apply valor_index_notin. rewrite in_uniao.
    apply valor_None_fst in Ha, Hb. tauto.
Qed.

(** The days of a rolled series are those of the daily series, each
    once. *)
Lemma map_fst_indexed {A B} (f : nat * (Z * A) -> Z * B) (s : list (Z * A)) (n : nat) :
  (forall i d c, fst (f (i, (d, c))) = d) ->
  map fst (map f (combine (seq n (length s)) s)) = map fst s.
Proof.
  intros Hf. revert n. induction s as [|[d c] s IH]; intros n; simpl; [reflexivity|].
  rewrite Hf, IH. reflexivity.
Qed.

Lemma rolling_mean_fst (w : nat) (s : list (Z * nat)) :
  map fst (Series.rolling_mean w s) = map fst s.
Proof.
  unfold Series.rolling_mean. apply map_fst_indexed. intros i d c. reflexivity.
Qed.

Lemma intervalo_NoDup (lo hi : Z) : List.NoDup (Series.intervalo lo hi).
Proof.
  unfold Series.intervalo. generalize (Z.to_nat (hi - lo + 1)) as n.
  generalize 0 as k. intros k n. revert k.
  induction n as [|n IH]; intros k; simpl; constructor.
  - intros Hin. apply in_map_iff in Hin as [i [Hi Hin]]. apply in_seq in Hin. lia.
  - apply IH.
Qed.

Lemma resample_count_NoDup (t : DataFrame) : List.NoDup (map fst (Series.resample_count t)).
Proof.
  unfold Series.resample_count. destruct (Series.dias t) as [|d0 ds]; [constructor|].
  rewrite map_map. cbn [fst]. rewrite map_id. apply intervalo_NoDup.
Qed.

Lemma serie_NoDup (w : nat) (t : DataFrame) :
  List.NoDup (map fst (Series.rolling_mean w (Series.resample_count t))).
Proof. rewrite rolling_mean_fst. apply resample_count_NoDup. Qed.

Lemma maior_que_1_fst (s : list (Z * option Q)) (d : Z) :
  In d (map fst (Series.maior_que_1 s)) -> In d (map fst s).
Proof.
  rewrite !in_map_iff. intros [[d' v] [<- Hin]].
  apply in_maior_que_1 in Hin as [Hin _]. exists (d', Some v). auto.
Qed.

(** On a series with one value a day, the filter keeps the value of a day
    exactly when it exists and is greater than 1. *)
Lemma valor_maior_que_1 (s : list (Z * option Q)) (d : Z) (v : Q) :
  List.NoDup (map fst s) ->
  Series.valor d (Series.maior_que_1 s) = Some v <->
  Series.valor d s = Some (Some v) /\ (1 < v)%Q.
Proof.
  rewrite <- gt1_true.
  induction s as [|[x [q|]] s IH]; cbn [map fst]; intros Hnd.
  - simpl. split; [congruence|]. intros [H _]. congruence.
  - apply List.NoDup_cons_iff in Hnd as [Hx Hnd]. specialize (IH Hnd).
    cbn [Series.maior_que_1 flat_map Series.valor] in *.
    destruct (Z.eqb_spec x d) as [->|Hne].
    + destruct (Series.gt1 q) eqn:Hq; cbn [app Series.valor].
      * rewrite Z.eqb_refl. split.
        -- intros [= ->]. auto.
        -- intros [[= ->] _]. reflexivity.
      * assert (Hnone : Series.valor d (Series.maior_que_1 s) = None).
        { apply valor_None_fst. intros Hin. apply Hx. apply maior_que_1_fst. exact Hin. }
        unfold Series.maior_que_1 in Hnone. rewrite Hnone. split; [congruence|].
        intros [[= ->] Hv]. congruence.
    + destruct (Series.gt1 q); cbn [app Series.valor].
      * destruct (Z.eqb_spec x d); [congruence|]. exact IH.
      * exact IH.
  - apply List.NoDup_cons_iff in Hnd as [Hx Hnd]. specialize (IH Hnd).
    cbn [Series.maior_que_1 flat_map Series.valor app] in *.
    destruct (Z.eqb_spec x d) as [->|Hne]; [|exact IH].
    assert (Hnone : Series.valor d (Series.maior_que_1 s) = None).
    { apply valor_None_fst. intros Hin. apply Hx. apply maior_que_1_fst. exact Hin. }
    unfold Series.maior_que_1 in Hnone. rewrite Hnone. split; [congruence|].
    intros [[=] _].
Qed.

(** C5. The tested series and the confirmed series go through the same
    filter, which keeps the value of a day exactly when the rolled value
    exists and is greater than 1 (a day whose rolled value is at most 1 is
    gone from the series); the figure shows those two filtered series and
    their quotient, which on a day of both is confirmed over tested, on a
    day of only one of them is present and missing, and on any other day is
    absent. *)
Theorem ratio_after_filter (w : nat) (t : DataFrame) (cidade data : string) :
  let tests := Series.maior_que_1 (serie_tests w t) in
  let confirmado := Series.maior_que_1 (serie_confirmado w t) in
  let fig := montar_figura w t cidade data in
  (forall d v, Series.valor d tests = Some v <->
               Series.valor d (serie_tests w t) = Some (Some v) /\ (1 < v)%Q)
  /\ (forall d v, Series.valor d confirmado = Some v <->
                  Series.valor d (serie_confirmado w t) = Some (Some v) /\ (1 < v)%Q)
  /\ chart_tests fig = tests
  /\ chart_confirmado fig = confirmado
  /\ chart_ratio fig = Series.dividir confirmado tests
  /\ (forall d c q, Series.valor d confirmado = Some c -> Series.valor d tests = Some q ->
        Series.valor d (chart_ratio fig) = Some (Some (c / q)%Q))
  /\ (forall d c, Series.valor d confirmado = Some c -> Series.valor d tests = None ->
        Series.valor d (chart_ratio fig) = Some None)
  /\ (forall d q, Series.valor d confirmado = None -> Series.valor d tests = Some q ->
        Series.valor d (chart_ratio fig) = Some None)
  /\ (forall d, Series.valor d confirmado = None -> Series.valor d tests = None ->
        Series.valor d (chart_ratio fig) = None).
Proof.
  intros tests confirmado fig.
  split; [intros d v; apply valor_maior_que_1, serie_NoDup|].
  split; [intros d v; apply valor_maior_que_1, serie_NoDup|].
  split; [apply manter_gt1_maior_que_1|].
  split; [apply manter_gt1_maior_que_1|].
  split; [reflexivity|].
  change (chart_ratio fig) with (Series.dividir confirmado tests).
  split; [|split; [|split]].
  - intros d c q Hc Hq. rewrite valor_dividir, Hc, Hq. reflexivity.
  - intros d c Hc Hq. rewrite valor_dividir, Hc, Hq. reflexivity.
  - intros d q Hc Hq. rewrite valor_dividir, Hc, Hq. reflexivity.
  - intros d Hc Hq. rewrite valor_dividir, Hc, Hq. reflexivity.
Qed.

Example ratio_dois_dias :
  chart_ratio (montar_figura 1 Exemplo.dois_dias "ITABUNA" "2021-01-05")
  = [(18628%Z, Some ((2 # 1) / (3 # 1))%Q); (18629%Z, None)].
Proof. reflexivity. Qed.

Lemma ratio_after_filter_witness :
  Series.valor 18629
    (chart_ratio (montar_figura 1 Exemplo.dois_dias "ITABUNA" "2021-01-05"))
  = Some None.
Proof.
  exact (proj1 (proj2 (proj2 (proj2 (proj2 (proj2 (proj2 (proj2
    (ratio_after_filter 1 Exemplo.dois_dias "ITABUNA" "2021-01-05"))))))))
    18629%Z (3 # 1)%Q eq_refl eq_refl).
Defined.

(** * Further properties of the script *)

(** ** File names: the extraction date and the category key *)

Lemma split_nonempty (c : ascii) (s : string) : Str.split c s <> [].
Proof.
  destruct s as [|a s]; simpl; [congruence|].
  destruct (Ascii.eqb a c); [congruence|].
  destruct (Str.split c s); congruence.
Qed.

Lemma split_sem_separador (c : ascii) (s : string) :
  ocorre c s = false -> Str.split c s = [s].
Proof.
  induction s as [|a s IH]; simpl; [reflexivity|].
  intros H. apply orb_false_iff in H as [Ha Hs].
  rewrite Ha, (IH Hs). reflexivity.
Qed.

Lemma split_app (c : ascii) (a b : string) :
  ocorre c a = false ->
  Str.split c (a ++ String c b)%string = a :: Str.split c b.
Proof.
  induction a as [|x a IH]; simpl.
  - intros _. rewrite Ascii.eqb_refl. reflexivity.
  - intros H. apply orb_false_iff in H as [Hx Ha].
    rewrite Hx, (IH Ha). reflexivity.
Qed.

Lemma ultimo_singleton (x : string) : Str.ultimo [x] = x.
Proof. reflexivity. Qed.

Lemma ultimo_cons (x : string) (l : list string) :
  l <> [] -> Str.ultimo (x :: l) = Str.ultimo l.
Proof. destruct l; [congruence|reflexivity]. Qed.

Lemma ultimo_cons_tail (x y : string) (l : list string) :
  l <> [] -> Str.ultimo (x :: l) = Str.ultimo (y :: l).
Proof. intros H. rewrite !ultimo_cons by exact H. reflexivity. Qed.

Lemma split_app_tail (c : ascii) (p r : string) :
  exists h t, Str.split c (p ++ String c r)%string = h :: t /\ t <> [].
Proof.
  induction p as [|a p (h & t & IH & Ht)]; simpl.
  - rewrite Ascii.eqb_refl. eexists _, _. split; [reflexivity|apply split_nonempty].
  - destruct (Ascii.eqb a c).
    + eexists _, _. split; [reflexivity|]. rewrite IH. congruence.
    + rewrite IH. eexists _, _. split; [reflexivity|exact Ht].
Qed.

(** The last piece of a split only depends on what follows the last
    separator. *)
Lemma ultimo_split_app (c : ascii) (p r : string) :
  Str.ultimo (Str.split c (p ++ String c r)%string) = Str.ultimo (Str.split c r).
Proof.
  induction p as [|a p IH]; simpl.
  - rewrite Ascii.eqb_refl. apply ultimo_cons, split_nonempty.
  - destruct (Ascii.eqb a c).
    + rewrite ultimo_cons; [exact IH|].
      destruct (split_app_tail c p r) as (h & t & -> & _). congruence.
    + destruct (split_app_tail c p r) as (h & t & Hs & Ht).
      rewrite Hs in IH |- *. rewrite <- IH. apply ultimo_cons_tail. exact Ht.
Qed.

Lemma ocorre_app (c : ascii) (a b : string) :
  ocorre c (a ++ b)%string = ocorre c a || ocorre c b.
Proof.
  induction a as [|x a IH]; simpl; [reflexivity|].
  rewrite IH, orb_assoc. reflexivity.
Qed.

Lemma append_assoc (a b c : string) :
  ((a ++ b) ++ c)%string = (a ++ (b ++ c))%string.
Proof. induction a as [|x a IH]; simpl; [reflexivity|rewrite IH; reflexivity]. Qed.

Lemma prefix_app (p s : string) : String.prefix p (p ++ s)%string = true.
Proof.
  induction p as [|a p IH]; simpl; [destruct s; reflexivity|].
  destruct (ascii_dec a a); [exact IH|congruence].
Qed.

(** X1. A file named [prefix ++ " " ++ key ++ "_" ++ date ++ "." ++ ext],
    where the key has no space and no underscore, the date no space, no
    underscore and no dot, and the extension no space and no underscore,
    is read as the extract of category [key] and of day [date], whatever
    the prefix holds; with the prefix "Banco Estadual COVID-19" it is
    matched by the glob pattern. *)
Theorem nome_de_arquivo_lido (prefixo chave data ext : string) :
  ocorre " " chave = false -> ocorre "_" chave = false ->
  ocorre " " data = false -> ocorre "_" data = false -> ocorre "." data = false ->
  ocorre " " ext = false -> ocorre "_" ext = false ->
  let nome := (prefixo ++ " " ++ chave ++ "_" ++ data ++ "." ++ ext)%string in
  chave_do_arquivo nome = chave
  /\ data_do_arquivo nome = data
  /\ nome_da_base (data_do_arquivo nome) = ("base-de-testes_" ++ data ++ ".csv")%string
  /\ (prefixo = PADRAO_ARQUIVOS -> Str.startswith PADRAO_ARQUIVOS nome = true).
Proof.
  intros Hk1 Hk2 Hd1 Hd2 Hd3 He1 He2 nome.
  assert (Hchave : chave_do_arquivo nome = chave).
  { unfold chave_do_arquivo, nome.
    change (prefixo ++ " " ++ chave ++ "_" ++ data ++ "." ++ ext)%string
      with (prefixo ++ String " " (chave ++ String "_" (data ++ String "." ext)))%string.
    rewrite ultimo_split_app.
    rewrite (split_sem_separador " ").
    - rewrite ultimo_singleton, split_app by exact Hk2. reflexivity.
    - rewrite ocorre_app. cbn [ocorre]. rewrite ocorre_app. cbn [ocorre].
      rewrite Hk1, Hd1, He1. reflexivity. }
  assert (Hdata : data_do_arquivo nome = data).
  { unfold data_do_arquivo, nome.
    change (prefixo ++ " " ++ chave ++ "_" ++ data ++ "." ++ ext)%string
      with (prefixo ++ String " " (chave ++ String "_" (data ++ String "." ext)))%string.
    replace (prefixo ++ String " " (chave ++ String "_" (data ++ String "." ext)))%string
      with ((prefixo ++ String " " chave) ++ String "_" (data ++ String "." ext))%string.
    - rewrite ultimo_split_app. rewrite (split_sem_separador "_").
      + rewrite ultimo_singleton, split_app by exact Hd3. reflexivity.
      + rewrite ocorre_app. cbn [ocorre]. rewrite Hd2, He2. reflexivity.
    - rewrite append_assoc. reflexivity. }
  split; [exact Hchave|]. split; [exact Hdata|]. split; [rewrite Hdata; reflexivity|].
  intros ->. unfold Str.startswith, nome. apply prefix_app.
Qed.

Lemma nome_de_arquivo_lido_witness :
  chave_do_arquivo "Banco Estadual COVID-19 SUSPEITOS_2021-01-05.csv" = "SUSPEITOS"
  /\ data_do_arquivo "Banco Estadual COVID-19 SUSPEITOS_2021-01-05.csv" = "2021-01-05".
Proof.
  pose proof (nome_de_arquivo_lido "Banco Estadual COVID-19" "SUSPEITOS" "2021-01-05" "csv"
                eq_refl eq_refl eq_refl eq_refl eq_refl eq_refl eq_refl) as H.
  split; [exact (proj1 H)|exact (proj1 (proj2 H))].
Defined.

(** ** The dict of extracts by category (lines 241 to 243) *)

Lemma dict_get_set_eq {V} (k : string) (v : V) (d : list (string * V)) :
  Dict.get k (Dict.set k v d) = Some v.
Proof.
  induction d as [|[k' v'] d IH]; simpl.
  - rewrite String.eqb_refl. reflexivity.
  - destruct (String.eqb k' k) eqn:E; simpl; rewrite E; [reflexivity|exact IH].
Qed.

Lemma dict_get_set_ne {V} (k k' : string) (v : V) (d : list (string * V)) :
  k <> k' -> Dict.get k' (Dict.set k v d) = Dict.get k' d.
Proof.
  intros Hne. induction d as [|[x y] d IH]; simpl.
  - apply String.eqb_neq in Hne. rewrite Hne. reflexivity.
  - destruct (String.eqb_spec x k) as [->|Hx]; simpl.
    + apply String.eqb_neq in Hne. rewrite Hne. reflexivity.
    + destruct (String.eqb x k'); [reflexivity|exact IH].
Qed.

Lemma dict_get_In {V} (k : string) (d : list (string * V)) :
  In k (map fst d) <-> exists v, Dict.get k d = Some v.
Proof.
  induction d as [|[x y] d IH]; simpl.
  - split; [tauto|]. intros [v Hv]. congruence.
  - destruct (String.eqb_spec x k) as [->|Hx].
    + split; eauto.
    + rewrite <- IH. tauto.
Qed.

Lemma dict_set_keys {V} (k : string) (v : V) (d : list (string * V)) :
  map fst (Dict.set k v d)
  = match Dict.get k d with
    | Some _ => map fst d
    | None => map fst d ++ [k]
    end.
Proof.
  induction d as [|[x y] d IH]; simpl; [reflexivity|].
  destruct (String.eqb x k); simpl; [reflexivity|].
  rewrite IH. destruct (Dict.get k d); reflexivity.
Qed.

Lemma NoDup_snoc {A} (l : list A) (x : A) :
  List.NoDup l -> ~ In x l -> List.NoDup (l ++ [x]).
Proof.
  induction l as [|y l IH]; simpl; intros Hnd Hx.
  - constructor; [simpl; tauto|constructor].
  - apply List.NoDup_cons_iff in Hnd as [Hy Hnd]. constructor.
    + rewrite in_app_iff. simpl. intros [H|[H|[]]]; [tauto|]. subst. tauto.
    + apply IH; tauto.
Qed.

Lemma dict_set_NoDup {V} (k : string) (v : V) (d : list (string * V)) :
  List.NoDup (map fst d) -> List.NoDup (map fst (Dict.set k v d)).
Proof.
  intros Hnd. rewrite dict_set_keys. destruct (Dict.get k d) eqn:E; [exact Hnd|].
  apply NoDup_snoc; [exact Hnd|]. intros Hin.
  apply dict_get_In in Hin as [v' Hv']. congruence.
Qed.

Lemma montar_chaves_acc (arquivos : list string) (d0 : list (string * string))
    (k a : string) :
  Dict.get k (fold_left (fun d arquivo => Dict.set (chave_do_arquivo arquivo) arquivo d)
                arquivos d0) = Some a ->
  (In a arquivos /\ chave_do_arquivo a = k) \/ Dict.get k d0 = Some a.
Proof.
  revert d0. induction arquivos as [|x l IH]; simpl; intros d0 H; [auto|].
  destruct (IH _ H) as [[Hin Hk]|Hget]; [auto|].
  destruct (String.eqb_spec (chave_do_arquivo x) k) as [Heq|Hne].
  - rewrite <- Heq, dict_get_set_eq in Hget. injection Hget as <-. auto.
  - rewrite dict_get_set_ne in Hget by exact Hne. auto.
Qed.

Lemma montar_chaves_keep (l : list string) (d0 : list (string * string)) (k a : string) :
  Dict.get k d0 = Some a ->
  (forall x, In x l -> chave_do_arquivo x <> k) ->
  Dict.get k (fold_left (fun d arquivo => Dict.set (chave_do_arquivo arquivo) arquivo d)
                l d0) = Some a.
Proof.
  revert d0. induction l as [|x l IH]; simpl; intros d0 Hget Hl; [exact Hget|].
  apply IH; [|auto]. rewrite dict_get_set_ne; [exact Hget|]. apply Hl. auto.
Qed.

Lemma montar_chaves_NoDup_acc (l : list string) (d0 : list (string * string)) :
  List.NoDup (map fst d0) ->
  List.NoDup (map fst (fold_left
     (fun d arquivo => Dict.set (chave_do_arquivo arquivo) arquivo d) l d0)).
Proof.
  revert d0. induction l as [|x l IH]; simpl; intros d0 Hnd; [exact Hnd|].
  apply IH, dict_set_NoDup, Hnd.
Qed.

Lemma montar_chaves_sound (arquivos : list string) (k a : string) :
  Dict.get k (montar_chaves arquivos) = Some a ->
  In a arquivos /\ chave_do_arquivo a = k.
Proof.
  intros H. destruct (montar_chaves_acc arquivos [] k a H) as [Hin|Hget]; [exact Hin|].
  simpl in Hget. congruence.
Qed.

Lemma montar_chaves_NoDup (arquivos : list string) :
  List.NoDup (map fst (montar_chaves arquivos)).
Proof. apply montar_chaves_NoDup_acc. constructor. Qed.

(** X2. The dict of extracts maps a category key only to a listed file
    whose name carries that key; each key appears once; of several files
    with the same key the last one listed is the one kept; and every
    listed file has its key in the dict. *)
Theorem montar_chaves_spec (arquivos : list string) :
  (forall k a, Dict.get k (montar_chaves arquivos) = Some a ->
               In a arquivos /\ chave_do_arquivo a = k)
  /\ List.NoDup (map fst (montar_chaves arquivos))
  /\ (forall l1 a l2, arquivos = l1 ++ a :: l2 ->
        (forall x, In x l2 -> chave_do_arquivo x <> chave_do_arquivo a) ->
        Dict.get (chave_do_arquivo a) (montar_chaves arquivos) = Some a)
  /\ (forall a, In a arquivos ->
        exists a', Dict.get (chave_do_arquivo a) (montar_chaves arquivos) = Some a').
Proof.
  assert (Hlast : forall l1 a l2, arquivos = l1 ++ a :: l2 ->
        (forall x, In x l2 -> chave_do_arquivo x <> chave_do_arquivo a) ->
        Dict.get (chave_do_arquivo a) (montar_chaves arquivos) = Some a).
  { intros l1 a l2 -> Hl2. unfold montar_chaves. rewrite fold_left_app. simpl.
    apply montar_chaves_keep; [apply dict_get_set_eq|exact Hl2]. }
  split; [|split; [|split]].
  - apply montar_chaves_sound.
  - apply montar_chaves_NoDup.
  - exact Hlast.
  - intros a Hin. induction arquivos as [|x l IH] using rev_ind; [destruct Hin|].
    destruct (String.eqb_spec (chave_do_arquivo x) (chave_do_arquivo a)) as [Heq|Hne].
    + exists x. rewrite <- Heq. apply (Hlast l x []); [reflexivity|]. intros y [].
    + apply in_app_iff in Hin as [Hin|[->|[]]]; [|congruence].
      unfold montar_chaves. rewrite fold_left_app. simpl.
      rewrite dict_get_set_ne by exact Hne.
      assert (Hl : forall l1 a0 l2, l = l1 ++ a0 :: l2 ->
          (forall x0, In x0 l2 -> chave_do_arquivo x0 <> chave_do_arquivo a0) ->
          Dict.get (chave_do_arquivo a0) (montar_chaves l) = Some a0).
      { intros l1 a0 l2 -> Hl2. unfold montar_chaves. rewrite fold_left_app. simpl.
        apply montar_chaves_keep; [apply dict_get_set_eq|exact Hl2]. }
      exact (IH Hl Hin).
Qed.

(** ** A first run: the cache is built (lines 236 to 320) *)

Lemma bind_ok {A B} (m : M A) (k : A -> M B) (w w' : World) (a : A) :
  m w = (Ok a, w') -> bind m k w = k a w'.
Proof. intros H. unfold bind. rewrite H. reflexivity. Qed.

Lemma bind_raise {A B} (m : M A) (k : A -> M B) (w w' : World) (e : exn) :
  m w = (Raise e, w') -> bind m k w = (Raise e, w').
Proof. intros H. unfold bind. rewrite H. reflexivity. Qed.

Lemma add_trace_add_trace (a b : list event) (w : World) :
  add_trace b (add_trace a w) = add_trace (a ++ b) w.
Proof. unfold add_trace. simpl. rewrite app_assoc. reflexivity. Qed.

Lemma add_trace_nil (w : World) : add_trace [] w = w.
Proof. unfold add_trace. rewrite app_nil_r. destruct w; reflexivity. Qed.

Lemma print_run (s : string) (w : World) : print s w = (Ok tt, add_trace [Print s] w).
Proof. reflexivity. Qed.

Lemma read_csv_run (name : string) (f : File) (w : World) :
  Dict.get name (cwd w) = Some f ->
  read_csv name w = (Ok f, add_trace [ReadCsv name] w).
Proof. intros H. unfold read_csv. rewrite H. reflexivity. Qed.

Lemma glob_exists (prefixo f : string) (w : World) :
  In f (List.filter (Str.startswith prefixo) (map fst (cwd w))) ->
  exists c, Dict.get f (cwd w) = Some c.
Proof. intros H. apply filter_In in H as [H _]. apply dict_get_In. exact H. Qed.

(** Every file of the dict is read once, in the order of the dict. *)
Lemma carregar_dados_run (chaves : list (string * string)) (w : World) :
  (forall k f, In (k, f) chaves -> exists c, Dict.get f (cwd w) = Some c) ->
  exists dados,
    carregar_dados chaves w = (Ok dados, add_trace (map ReadCsv (map snd chaves)) w)
    /\ Forall2 (fun kf kc => fst kf = fst kc
                             /\ Dict.get (snd kf) (cwd w) = Some (snd kc)) chaves dados.
Proof.
  revert w. induction chaves as [|[k f] chaves IH]; intros w Hex.
  - exists []. simpl. rewrite add_trace_nil. split; [reflexivity|constructor].
  - destruct (Hex k f (or_introl eq_refl)) as [c Hc].
    destruct (IH (add_trace [ReadCsv f] w)) as (dados & Hrun & Hall).
    { intros k' f' Hin. apply (Hex k' f'). right. exact Hin. }
    exists ((k, c) :: dados). split.
    + cbn [carregar_dados].
      rewrite (bind_ok _ _ _ _ _ (read_csv_run f c w Hc)).
      rewrite (bind_ok _ _ _ _ _ Hrun). unfold ret.
      rewrite add_trace_add_trace. reflexivity.
    + constructor; [split; [reflexivity|exact Hc]|exact Hall].
Qed.

Lemma dados_get (chaves : list (string * string)) (dados : list (string * File))
    (cwd0 : list (string * File)) (k : string) :
  Forall2 (fun kf kc => fst kf = fst kc
                        /\ Dict.get (snd kf) cwd0 = Some (snd kc)) chaves dados ->
  Dict.get k dados = match Dict.get k chaves with
                     | Some f => Dict.get f cwd0
                     | None => None
                     end.
Proof.
  induction 1 as [|[k1 f1] [k2 c2] chaves dados [Hk Hc] _ IH]; simpl; [reflexivity|].
  simpl in Hk, Hc. subst k2. destruct (String.eqb k1 k); [symmetry; exact Hc|exact IH].
Qed.

Lemma montar_chaves_exists (arquivos : list string) (w : World) :
  (forall f, In f arquivos -> exists c, Dict.get f (cwd w) = Some c) ->
  forall k f, In (k, f) (montar_chaves arquivos) -> exists c, Dict.get f (cwd w) = Some c.
Proof.
  intros Hex k f Hin. apply Hex.
  assert (Hget : Dict.get k (montar_chaves arquivos) = Some f).
  { pose proof (montar_chaves_NoDup arquivos) as Hnd.
    revert Hin Hnd. generalize (montar_chaves arquivos) as d.
    induction d as [|[x y] d IH]; simpl; [tauto|].
    intros [[= -> ->]|Hin] Hnd.
    - rewrite String.eqb_refl. reflexivity.
    - apply List.NoDup_cons_iff in Hnd as [Hx Hnd].
      destruct (String.eqb_spec x k) as [->|Hne]; [|auto].
      exfalso. apply Hx. apply in_map_iff. exists (k, f). auto. }
  apply montar_chaves_sound in Hget. tauto.
Qed.

Lemma item_run {V} (k : string) (d : list (string * V)) (v : V) (w : World) :
  Dict.get k d = Some v -> item k d w = (Ok v, w).
Proof. intros H. unfold item. rewrite H. reflexivity. Qed.

Lemma item_missing {V} (k : string) (d : list (string * V)) (w : World) :
  Dict.get k d = None -> item k d w = (@Raise V (KeyError k), w).
Proof. intros H. unfold item. rewrite H. reflexivity. Qed.

(** The branch that builds the cache, when every category has its raw
    extract: the outcome is that of the reconciler, and the cache is written
    only if it returns. *)
Lemma gerar_base_run (to_datetime : ToDatetime) (arquivos : list string) (data : string)
    (w : World) (fc fd fs : string) (c d s : list RawRow) :
  length arquivos = 3 ->
  (forall f, In f arquivos -> exists x, Dict.get f (cwd w) = Some x) ->
  Dict.get CONFIRMADOS (montar_chaves arquivos) = Some fc ->
  Dict.get DESCARTADOS (montar_chaves arquivos) = Some fd ->
  Dict.get SUSPEITOS (montar_chaves arquivos) = Some fs ->
  Dict.get fc (cwd w) = Some (FRaw c) ->
  Dict.get fd (cwd w) = Some (FRaw d) ->
  Dict.get fs (cwd w) = Some (FRaw s) ->
  let lidos := Print ("Carregando arquivos do dia: " ++ data ++ " " ++ nl)
               :: map ReadCsv (map snd (montar_chaves arquivos))
               ++ [Print "Realizando limpeza dos dados"] in
  gerar_base to_datetime arquivos data w
  = match Reconciler.reconciliar to_datetime c d s with
    | Ok t => (Ok t, {| cwd := Dict.set (nome_da_base data) (FTable t) (cwd w);
                        heap := heap w;
                        trace := trace w ++ lidos ++ [ToCsv (nome_da_base data)] |})
    | Raise e => (Raise e, add_trace lidos w)
    end.
Proof.
  intros Hlen Hex Hkc Hkd Hks Hc Hd Hs lidos.
  unfold gerar_base. rewrite Hlen. cbn [Nat.eqb negb].
  rewrite (bind_ok _ _ _ _ _ (print_run _ w)).
  destruct (carregar_dados_run (montar_chaves arquivos)
              (add_trace [Print ("Carregando arquivos do dia: " ++ data ++ " " ++ nl)] w))
    as (dados & Hrun & Hall).
  { apply (montar_chaves_exists arquivos). exact Hex. }
  cbn [cwd add_trace] in Hall.
  rewrite (bind_ok _ _ _ _ _ Hrun). rewrite add_trace_add_trace.
  erewrite bind_ok;
    [|apply item_run; rewrite (dados_get _ _ _ _ Hall), Hkc; exact Hc].
  erewrite bind_ok;
    [|apply item_run; rewrite (dados_get _ _ _ _ Hall), Hkd; exact Hd].
  erewrite bind_ok;
    [|apply item_run; rewrite (dados_get _ _ _ _ Hall), Hks; exact Hs].
  rewrite (bind_ok _ _ _ _ _ (print_run _ _)). rewrite add_trace_add_trace.
  cbn [linhas]. unfold bind at 1, ret at 1. unfold bind at 1, ret at 1.
  unfold bind at 1, ret at 1.
  unfold bind at 1. subst lidos. cbn [app].
  destruct (Reconciler.reconciliar to_datetime c d s) as [t|e]; cbn [lift].
  - unfold ret at 1, bind, to_csv, ret. cbn [cwd heap trace add_trace].
    repeat first [rewrite <- app_comm_cons | rewrite <- app_assoc]. reflexivity.
  - unfold raise, add_trace.
    repeat first [rewrite <- app_comm_cons | rewrite <- app_assoc]. reflexivity.
Qed.

Lemma main_cache_miss (to_datetime : ToDatetime) (args : Args) (w : World)
    (a : string) (resto : list string) :
  List.filter (Str.startswith PADRAO_ARQUIVOS) (map fst (cwd w)) = a :: resto ->
  Dict.get (nome_da_base (data_do_arquivo a)) (cwd w) = None ->
  main to_datetime args w
  = bind (gerar_base to_datetime (a :: resto) (data_do_arquivo a))
         (fun t => relatar t (data_do_arquivo a) args) w.
Proof.
  intros Hglob Hget.
  unfold main, bind at 1, glob. cbn [fst snd]. rewrite Hglob.
  unfold bind at 1, ret at 1. unfold bind at 1, path_exists. rewrite Hget.
  cbn [notnull negb]. unfold bind.
  destruct (gerar_base to_datetime (a :: resto) (data_do_arquivo a) w) as [[t|e] w1];
    reflexivity.
Qed.

Lemma glob_all_exist (w : World) (arquivos : list string) :
  List.filter (Str.startswith PADRAO_ARQUIVOS) (map fst (cwd w)) = arquivos ->
  forall f, In f arquivos -> exists x, Dict.get f (cwd w) = Some x.
Proof. intros <- f Hin. eapply glob_exists. exact Hin. Qed.

(** X3. A first run, with no cache and one raw extract per category: when
    the reconciler returns a table, the run writes it as the cache of the
    extraction date (a new file, last of the folder, every other file as it
    was), after reading each extract once and before any report; the reports
    then run on the tested lines of that table. *)
Theorem first_run_builds_cache (to_datetime : ToDatetime) (args : Args) (w : World)
    (a1 a2 a3 fc fd fs : string) (c d s : list RawRow) (t : DataFrame) :
  List.filter (Str.startswith PADRAO_ARQUIVOS) (map fst (cwd w)) = [a1; a2; a3] ->
  Dict.get (nome_da_base (data_do_arquivo a1)) (cwd w) = None ->
  Dict.get CONFIRMADOS (montar_chaves [a1; a2; a3]) = Some fc ->
  Dict.get DESCARTADOS (montar_chaves [a1; a2; a3]) = Some fd ->
  Dict.get SUSPEITOS (montar_chaves [a1; a2; a3]) = Some fs ->
  Dict.get fc (cwd w) = Some (FRaw c) ->
  Dict.get fd (cwd w) = Some (FRaw d) ->
  Dict.get fs (cwd w) = Some (FRaw s) ->
  Reconciler.reconciliar to_datetime c d s = Ok t ->
  let base := nome_da_base (data_do_arquivo a1) in
  let r := main to_datetime args w in
  Dict.get base (cwd (snd r)) = Some (FTable t)
  /\ map fst (cwd (snd r)) = map fst (cwd w) ++ [base]
  /\ (forall n, n <> base -> Dict.get n (cwd (snd r)) = Dict.get n (cwd w))
  /\ (exists evs,
        trace (snd r)
        = trace w
          ++ Print ("Carregando arquivos do dia: " ++ data_do_arquivo a1 ++ " " ++ nl)
             :: map ReadCsv (map snd (montar_chaves [a1; a2; a3]))
          ++ [Print "Realizando limpeza dos dados"; ToCsv base] ++ evs
        /\ Forall is_report_event evs)
  /\ (forall t', apenas_testados t = Ok t' ->
        heap (snd r) !! length (heap w) = Some t').
Proof.
  intros Hglob Hnone Hkc Hkd Hks Hc Hd Hs Hrec base r.
  pose proof (gerar_base_run to_datetime [a1; a2; a3] (data_do_arquivo a1) w fc fd fs c d s
                eq_refl (glob_all_exist w _ Hglob) Hkc Hkd Hks Hc Hd Hs) as Hrun.
  cbv zeta in Hrun. rewrite Hrec in Hrun.
  assert (Hmain : r = relatar t (data_do_arquivo a1) args
      {| cwd := Dict.set base (FTable t) (cwd w); heap := heap w;
         trace := trace w
           ++ (Print ("Carregando arquivos do dia: " ++ data_do_arquivo a1 ++ " " ++ nl)
               :: map ReadCsv (map snd (montar_chaves [a1; a2; a3]))
               ++ [Print "Realizando limpeza dos dados"]) ++ [ToCsv base] |}).
  { unfold r. rewrite (main_cache_miss to_datetime args w a1 [a2; a3] Hglob Hnone).
    rewrite (bind_ok _ _ _ _ _ Hrun). reflexivity. }
  destruct (relatar_report_effect t (data_do_arquivo a1) args
    {| cwd := Dict.set base (FTable t) (cwd w); heap := heap w;
       trace := trace w
         ++ (Print ("Carregando arquivos do dia: " ++ data_do_arquivo a1 ++ " " ++ nl)
             :: map ReadCsv (map snd (montar_chaves [a1; a2; a3]))
             ++ [Print "Realizando limpeza dos dados"]) ++ [ToCsv base] |})
    as (Hcwd & _ & [evs [Htrace Hevs]]).
  rewrite <- Hmain in Hcwd, Htrace. cbn [cwd trace] in Hcwd, Htrace.
  split; [|split; [|split; [|split]]].
  - rewrite Hcwd. apply dict_get_set_eq.
  - rewrite Hcwd, dict_set_keys. fold base in Hnone. rewrite Hnone. reflexivity.
  - intros n Hn. rewrite Hcwd. apply dict_get_set_ne. congruence.
  - exists evs. split; [|exact Hevs]. rewrite Htrace.
    repeat first [rewrite <- app_comm_cons | rewrite <- app_assoc]. reflexivity.
  - intros t' Ht'. rewrite Hmain.
    unfold relatar. unfold bind at 1. rewrite Ht'. cbn [lift]. unfold ret at 1.
    unfold bind at 1, alloc. cbn [heap].
    apply (report_effect_lookup _ _ _ _ (relatorios_report_effect _ _ _ _ _)).
    cbn [heap]. rewrite lookup_app_r by lia. rewrite Nat.sub_diag. reflexivity.
Qed.

Lemma first_run_builds_cache_witness :
  Dict.get "base-de-testes_2021-01-05.csv"
    (cwd (snd (main Calendar.to_datetime_dmY Exemplo.args (Exemplo.mundo Exemplo.pasta_nova))))
  = Some (FTable Exemplo.base).
Proof.
  exact (proj1 (first_run_builds_cache Calendar.to_datetime_dmY Exemplo.args
                  (Exemplo.mundo Exemplo.pasta_nova)
                  Exemplo.arq_confirmados Exemplo.arq_descartados Exemplo.arq_suspeitos
                  Exemplo.arq_confirmados Exemplo.arq_descartados Exemplo.arq_suspeitos
                  Exemplo.confirmados Exemplo.descartados Exemplo.suspeitos Exemplo.base
                  eq_refl eq_refl eq_refl eq_refl eq_refl eq_refl eq_refl eq_refl eq_refl)).
Defined.

(** X4. A first run in which the date conversion fails: the run stops with
    the reconciler's exception after the cleaning message; the folder is
    left as it was (no cache is written) and no report is made. *)
Theorem first_run_conversion_failure (to_datetime : ToDatetime) (args : Args) (w : World)
    (a1 a2 a3 fc fd fs : string) (c d s : list RawRow) (e : exn) :
  List.filter (Str.startswith PADRAO_ARQUIVOS) (map fst (cwd w)) = [a1; a2; a3] ->
  Dict.get (nome_da_base (data_do_arquivo a1)) (cwd w) = None ->
  Dict.get CONFIRMADOS (montar_chaves [a1; a2; a3]) = Some fc ->
  Dict.get DESCARTADOS (montar_chaves [a1; a2; a3]) = Some fd ->
  Dict.get SUSPEITOS (montar_chaves [a1; a2; a3]) = Some fs ->
  Dict.get fc (cwd w) = Some (FRaw c) ->
  Dict.get fd (cwd w) = Some (FRaw d) ->
  Dict.get fs (cwd w) = Some (FRaw s) ->
  Reconciler.reconciliar to_datetime c d s = Raise e ->
  main to_datetime args w
  = (Raise e,
     add_trace (Print ("Carregando arquivos do dia: " ++ data_do_arquivo a1 ++ " " ++ nl)
                :: map ReadCsv (map snd (montar_chaves [a1; a2; a3]))
                ++ [Print "Realizando limpeza dos dados"]) w).
Proof.
  intros Hglob Hnone Hkc Hkd Hks Hc Hd Hs Hrec.
  pose proof (gerar_base_run to_datetime [a1; a2; a3] (data_do_arquivo a1) w fc fd fs c d s
                eq_refl (glob_all_exist w _ Hglob) Hkc Hkd Hks Hc Hd Hs) as Hrun.
  cbv zeta in Hrun. rewrite Hrec in Hrun.
  rewrite (main_cache_miss to_datetime args w a1 [a2; a3] Hglob Hnone).
  apply bind_raise. exact Hrun.
Qed.

Lemma first_run_conversion_failure_witness :
  fst (main Calendar.to_datetime_dmY Exemplo.args (Exemplo.mundo Exemplo2.pasta_data_ruim))
  = Raise (ValueError "to_datetime")
  /\ cwd (snd (main Calendar.to_datetime_dmY Exemplo.args
                 (Exemplo.mundo Exemplo2.pasta_data_ruim)))
     = Exemplo2.pasta_data_ruim.
Proof.
  rewrite (first_run_conversion_failure Calendar.to_datetime_dmY Exemplo.args
             (Exemplo.mundo Exemplo2.pasta_data_ruim)
             Exemplo.arq_confirmados Exemplo.arq_descartados Exemplo.arq_suspeitos
             Exemplo.arq_confirmados Exemplo.arq_descartados Exemplo.arq_suspeitos
             [Exemplo.linha "sem data" "ITABUNA"] Exemplo.descartados Exemplo.suspeitos
             (ValueError "to_datetime")
             eq_refl eq_refl eq_refl eq_refl eq_refl eq_refl eq_refl eq_refl eq_refl).
  split; reflexivity.
Defined.

(** X5. A first run with three extracts of which none carries one of the
    categories (two extracts of the same category, or a misnamed one): every
    extract of the dict is read, then the run stops on a KeyError naming the
    first missing category, in the order CONFIRMADOS, DESCARTADOS,
    SUSPEITOS; no cleaning is done, no cache is written, nothing is
    reported. *)
Theorem first_run_missing_category (to_datetime : ToDatetime) (args : Args) (w : World)
    (a1 a2 a3 k : string) :
  List.filter (Str.startswith PADRAO_ARQUIVOS) (map fst (cwd w)) = [a1; a2; a3] ->
  Dict.get (nome_da_base (data_do_arquivo a1)) (cwd w) = None ->
  (k = CONFIRMADOS /\ Dict.get CONFIRMADOS (montar_chaves [a1; a2; a3]) = None)
  \/ (k = DESCARTADOS /\ Dict.get CONFIRMADOS (montar_chaves [a1; a2; a3]) <> None
      /\ Dict.get DESCARTADOS (montar_chaves [a1; a2; a3]) = None)
  \/ (k = SUSPEITOS /\ Dict.get CONFIRMADOS (montar_chaves [a1; a2; a3]) <> None
      /\ Dict.get DESCARTADOS (montar_chaves [a1; a2; a3]) <> None
      /\ Dict.get SUSPEITOS (montar_chaves [a1; a2; a3]) = None) ->
  main to_datetime args w
  = (Raise (KeyError k),
     add_trace (Print ("Carregando arquivos do dia: " ++ data_do_arquivo a1 ++ " " ++ nl)
                :: map ReadCsv (map snd (montar_chaves [a1; a2; a3]))) w).
Proof.
  intros Hglob Hnone Hk.
  rewrite (main_cache_miss to_datetime args w a1 [a2; a3] Hglob Hnone).
  apply bind_raise. unfold gerar_base. cbn [length Nat.eqb negb].
  rewrite (bind_ok _ _ _ _ _ (print_run _ w)).
  destruct (carregar_dados_run (montar_chaves [a1; a2; a3])
              (add_trace [Print ("Carregando arquivos do dia: "
                                 ++ data_do_arquivo a1 ++ " " ++ nl)] w))
    as (dados & Hrun & Hall).
  { apply (montar_chaves_exists [a1; a2; a3]). apply (glob_all_exist w _ Hglob). }
  cbn [cwd add_trace] in Hall.
  rewrite (bind_ok _ _ _ _ _ Hrun). rewrite add_trace_add_trace. cbn [app].
  assert (Hsome : forall q, Dict.get q (montar_chaves [a1; a2; a3]) <> None ->
                            exists x, Dict.get q dados = Some x).
  { intros q Hq. rewrite (dados_get _ _ _ _ Hall).
    destruct (Dict.get q (montar_chaves [a1; a2; a3])) as [f|] eqn:Hf; [|congruence].
    apply montar_chaves_sound in Hf as [Hin _].
    apply (glob_all_exist w _ Hglob). exact Hin. }
  assert (Hmiss : forall q, Dict.get q (montar_chaves [a1; a2; a3]) = None ->
                            Dict.get q dados = None).
  { intros q Hq. rewrite (dados_get _ _ _ _ Hall), Hq. reflexivity. }
  destruct Hk as [[-> Hc]|[[-> [Hc Hd]]|[-> [Hc [Hd Hs]]]]].
  - apply bind_raise. apply item_missing. auto.
  - destruct (Hsome _ Hc) as [xc Hxc].
    erewrite bind_ok; [|apply item_run; exact Hxc].
    apply bind_raise. apply item_missing. auto.
  - destruct (Hsome _ Hc) as [xc Hxc]. destruct (Hsome _ Hd) as [xd Hxd].
    erewrite bind_ok; [|apply item_run; exact Hxc].
    erewrite bind_ok; [|apply item_run; exact Hxd].
    apply bind_raise. apply item_missing. auto.
Qed.

Lemma first_run_missing_category_witness :
  fst (main Calendar.to_datetime_dmY Exemplo.args (Exemplo.mundo Exemplo2.pasta_repetida))
  = Raise (KeyError "DESCARTADOS").
Proof.
  rewrite (first_run_missing_category Calendar.to_datetime_dmY Exemplo.args
             (Exemplo.mundo Exemplo2.pasta_repetida)
             Exemplo.arq_confirmados Exemplo.arq_suspeitos
             "Banco Estadual COVID-19 CONFIRMADOS_2021-01-06.csv" "DESCARTADOS"
             eq_refl eq_refl).
  - reflexivity.
  - right. left. split; [reflexivity|]. split; [discriminate|reflexivity].
Defined.

(** ** The reports depend on the table and the arguments only *)

Lemma add_heap_nil (w : World) : add_heap [] w = w.
Proof. unfold add_heap. rewrite app_nil_r. destruct w; reflexivity. Qed.

Lemma plotar_corpo_uniform (t : DataFrame) (cidade data : string) (janela : Z)
    (interativo : bool) :
  exists o evs,
    Forall is_report_event evs
    /\ forall w, plotar_corpo t cidade data janela interativo w = (o, add_trace evs w).
Proof.
  unfold plotar_corpo. destruct (Nat.eqb (length t) 0).
  { exists (Ok tt), [Print MSG_NENHUM_REGISTRO]. split; [repeat constructor|reflexivity]. }
  assert (Hraise : forall msg, exists (o : outcome unit) evs,
            Forall is_report_event evs
            /\ forall w, raise (ValueError msg) w = (o, add_trace evs w)).
  { intros msg. exists (Raise (ValueError msg)), []. split; [constructor|].
    intros w. rewrite add_trace_nil. reflexivity. }
  destruct (fora_dos_limites t); [apply Hraise|].
  destruct (janela <? 0)%Z; [apply Hraise|].
  cbv zeta.
  destruct (chart_tests _); [apply Hraise|].
  destruct (chart_confirmado _); [apply Hraise|].
  destruct interativo.
  - exists (Ok tt), [Show (montar_figura (Z.to_nat janela) t cidade data)].
    split; [repeat constructor|reflexivity].
  - exists (Ok tt), [SaveFig (nome_do_plot cidade data)
                       (montar_figura (Z.to_nat janela) t cidade data)].
    split; [repeat constructor|reflexivity].
Qed.

Lemma plotar_uniform (t : DataFrame) (cidade data : string) (janela : Z)
    (interativo : bool) :
  exists o evs,
    Forall is_report_event evs
    /\ forall w l, heap w !! l = Some t ->
         exists ts, plotar_testes_por_cidade l cidade data janela interativo w
                    = (o, add_trace evs (add_heap ts w)).
Proof.
  destruct (String.eqb_spec cidade BAHIA) as [->|Hne].
  - destruct (plotar_corpo_uniform t BAHIA data janela interativo) as (o & evs & Hevs & Hrun).
    exists o, evs. split; [exact Hevs|]. intros w l Hl. exists [].
    rewrite (plotar_bahia l t data janela interativo w Hl), add_heap_nil. apply Hrun.
  - destruct (plotar_corpo_uniform (filtrar_cidade cidade t) cidade data janela interativo)
      as (o & evs & Hevs & Hrun).
    exists o, evs. split; [exact Hevs|]. intros w l Hl.
    exists [filtrar_cidade cidade t].
    rewrite (plotar_cidade l t cidade data janela interativo w Hl Hne). apply Hrun.
Qed.

Lemma relatorios_uniform (t : DataFrame) (data : string) (janela : Z) (interativo : bool)
    (cidades : list string) :
  exists o evs,
    Forall is_report_event evs
    /\ forall w l, heap w !! l = Some t ->
         exists ts, relatorios l data janela interativo cidades w
                    = (o, add_trace evs (add_heap ts w)).
Proof.
  induction cidades as [|cidade resto (o2 & evs2 & Hevs2 & Hrun2)].
  - exists (Ok tt), []. split; [constructor|]. intros w l _. exists [].
    rewrite add_heap_nil, add_trace_nil. reflexivity.
  - destruct (plotar_uniform t cidade data janela interativo) as (o1 & evs1 & Hevs1 & Hrun1).
    destruct o1 as [[]|e].
    + exists o2, (Print ("Plotando gráficos para a cidade: " ++ cidade) :: evs1 ++ evs2).
      split; [constructor; [exact I|apply Forall_app; auto]|].
      intros w l Hl. rewrite relatorios_cons.
      destruct (Hrun1 (add_trace [Print ("Plotando gráficos para a cidade: " ++ cidade)] w)
                  l Hl) as [ts1 Hp].
      rewrite (bind_ok _ _ _ _ _ Hp).
      destruct (Hrun2 (add_trace evs1 (add_heap ts1
                  (add_trace [Print ("Plotando gráficos para a cidade: " ++ cidade)] w))) l)
        as [ts2 Hr].
      { cbn [add_trace add_heap heap]. apply lookup_app_l_Some. exact Hl. }
      exists (ts1 ++ ts2). rewrite Hr. f_equal.
      unfold add_trace, add_heap. cbn [cwd heap trace].
      repeat first [rewrite <- app_comm_cons | rewrite <- app_assoc]. reflexivity.
    + exists (Raise e), (Print ("Plotando gráficos para a cidade: " ++ cidade) :: evs1).
      split; [constructor; [exact I|exact Hevs1]|].
      intros w l Hl. rewrite relatorios_cons.
      destruct (Hrun1 (add_trace [Print ("Plotando gráficos para a cidade: " ++ cidade)] w)
                  l Hl) as [ts1 Hp].
      rewrite (bind_raise _ _ _ _ _ Hp). exists ts1. f_equal.
      unfold add_trace, add_heap. cbn [cwd heap trace].
      repeat first [rewrite <- app_comm_cons | rewrite <- app_assoc]. reflexivity.
Qed.

(** The report stage on a table: its outcome and the events it emits are
    the same in every world. *)
Lemma relatar_uniform (t : DataFrame) (data : string) (args : Args) :
  exists o evs,
    Forall is_report_event evs
    /\ forall w, exists ts, relatar t data args w = (o, add_trace evs (add_heap ts w)).
Proof.
  unfold relatar. destruct (apenas_testados t) as [t'|e].
  - destruct (relatorios_uniform t' data (args_janela args) (args_interativo args)
                (args_cidades args)) as (o & evs & Hevs & Hrun).
    exists o, evs. split; [exact Hevs|]. intros w.
    destruct (Hrun (add_heap [t'] w) (length (heap w))) as [ts Hr].
    { cbn [add_heap heap]. rewrite lookup_app_r by lia. rewrite Nat.sub_diag. reflexivity. }
    exists ([t'] ++ ts). cbn [lift]. unfold bind at 1, ret at 1.
    unfold bind at 1, alloc. change {| cwd := cwd w; heap := heap w ++ [t']; trace := trace w |}
      with (add_heap [t'] w). rewrite Hr. f_equal.
    unfold add_trace, add_heap. cbn [cwd heap trace]. rewrite <- app_assoc. reflexivity.
  - exists (Raise e), []. split; [constructor|]. intros w. exists [].
    rewrite add_heap_nil, add_trace_nil. reflexivity.
Qed.

(** ** A second run on the folder a first run left *)

Lemma startswith_base (data : string) :
  Str.startswith PADRAO_ARQUIVOS (nome_da_base data) = false.
Proof. reflexivity. Qed.

Lemma glob_after_to_csv (base : string) (v : File) (pasta : list (string * File)) :
  Dict.get base pasta = None ->
  Str.startswith PADRAO_ARQUIVOS base = false ->
  List.filter (Str.startswith PADRAO_ARQUIVOS) (map fst (Dict.set base v pasta))
  = List.filter (Str.startswith PADRAO_ARQUIVOS) (map fst pasta).
Proof.
  intros Hnone Hbase. rewrite dict_set_keys, Hnone, List.filter_app. simpl.
  rewrite Hbase, app_nil_r. reflexivity.
Qed.

Lemma main_cache_built (to_datetime : ToDatetime) (args : Args) (w : World)
    (a1 a2 a3 fc fd fs : string) (c d s : list RawRow) (t : DataFrame) :
  List.filter (Str.startswith PADRAO_ARQUIVOS) (map fst (cwd w)) = [a1; a2; a3] ->
  Dict.get (nome_da_base (data_do_arquivo a1)) (cwd w) = None ->
  Dict.get CONFIRMADOS (montar_chaves [a1; a2; a3]) = Some fc ->
  Dict.get DESCARTADOS (montar_chaves [a1; a2; a3]) = Some fd ->
  Dict.get SUSPEITOS (montar_chaves [a1; a2; a3]) = Some fs ->
  Dict.get fc (cwd w) = Some (FRaw c) ->
  Dict.get fd (cwd w) = Some (FRaw d) ->
  Dict.get fs (cwd w) = Some (FRaw s) ->
  Reconciler.reconciliar to_datetime c d s = Ok t ->
  main to_datetime args w
  = relatar t (data_do_arquivo a1) args
      {| cwd := Dict.set (nome_da_base (data_do_arquivo a1)) (FTable t) (cwd w);
         heap := heap w;
         trace := trace w
           ++ (Print ("Carregando arquivos do dia: " ++ data_do_arquivo a1 ++ " " ++ nl)
               :: map ReadCsv (map snd (montar_chaves [a1; a2; a3]))
               ++ [Print "Realizando limpeza dos dados"])
           ++ [ToCsv (nome_da_base (data_do_arquivo a1))] |}.
Proof.
  intros Hglob Hnone Hkc Hkd Hks Hc Hd Hs Hrec.
  pose proof (gerar_base_run to_datetime [a1; a2; a3] (data_do_arquivo a1) w fc fd fs c d s
                eq_refl (glob_all_exist w _ Hglob) Hkc Hkd Hks Hc Hd Hs) as Hrun.
  cbv zeta in Hrun. rewrite Hrec in Hrun.
  rewrite (main_cache_miss to_datetime args w a1 [a2; a3] Hglob Hnone).
  rewrite (bind_ok _ _ _ _ _ Hrun). reflexivity.
Qed.

Lemma relatorios_sem_linhas (l : loc) (data : string) (janela : Z) (interativo : bool)
    (cidades : list string) (w : World) :
  heap w !! l = Some [] ->
  fst (relatorios l data janela interativo cidades w) = Ok tt.
Proof.
  revert w. induction cidades as [|cidade resto IH]; intros w Hl; [reflexivity|].
  rewrite relatorios_cons.
  destruct (plotar_sem_registros l [] cidade data janela interativo
              (add_trace [Print ("Plotando gráficos para a cidade: " ++ cidade)] w))
    as (w1 & Hrun & _ & _ & Hl1).
  - exact Hl.
  - destruct (String.eqb cidade BAHIA); reflexivity.
  - rewrite (bind_ok _ _ _ _ _ Hrun). apply IH. exact Hl1.
Qed.

(** X6. After a first run that built the cache, a second run on the folder
    it left (with any date conversion) reads only the cache and leaves the
    folder as it is.  When the cached table has at least one line, the
    second run ends with the same outcome and emits, after its two loading
    events, exactly the report events of the first run.  When the cached
    table has no line, the first run ended normally but the second stops
    on a KeyError right after loading: the cache reads back with an untyped
    TESTE column. *)
Theorem second_run_repeats_reports (to_datetime to_datetime' : ToDatetime) (args : Args)
    (w : World) (a1 a2 a3 fc fd fs : string) (c d s : list RawRow) (t : DataFrame) :
  List.filter (Str.startswith PADRAO_ARQUIVOS) (map fst (cwd w)) = [a1; a2; a3] ->
  Dict.get (nome_da_base (data_do_arquivo a1)) (cwd w) = None ->
  Dict.get CONFIRMADOS (montar_chaves [a1; a2; a3]) = Some fc ->
  Dict.get DESCARTADOS (montar_chaves [a1; a2; a3]) = Some fd ->
  Dict.get SUSPEITOS (montar_chaves [a1; a2; a3]) = Some fs ->
  Dict.get fc (cwd w) = Some (FRaw c) ->
  Dict.get fd (cwd w) = Some (FRaw d) ->
  Dict.get fs (cwd w) = Some (FRaw s) ->
  Reconciler.reconciliar to_datetime c d s = Ok t ->
  let base := nome_da_base (data_do_arquivo a1) in
  let r1 := main to_datetime args w in
  let r2 := main to_datetime' args (snd r1) in
  cwd (snd r2) = cwd (snd r1)
  /\ exists evs,
       Forall is_report_event evs
       /\ trace (snd r1)
          = trace w
            ++ Print ("Carregando arquivos do dia: " ++ data_do_arquivo a1 ++ " " ++ nl)
               :: map ReadCsv (map snd (montar_chaves [a1; a2; a3]))
            ++ [Print "Realizando limpeza dos dados"; ToCsv base] ++ evs
       /\ (t <> [] ->
           fst r2 = fst r1
           /\ trace (snd r2)
              = trace (snd r1)
                ++ [Print (nl ++ "Carregando base de dados." ++ nl); ReadCsv base] ++ evs)
       /\ (t = [] ->
           fst r1 = Ok tt
           /\ fst r2 = Raise (KeyError "DATA DA NOTIFICACAO")
           /\ trace (snd r2)
              = trace (snd r1)
                ++ [Print (nl ++ "Carregando base de dados." ++ nl); ReadCsv base]).
Proof.
  intros Hglob Hnone Hkc Hkd Hks Hc Hd Hs Hrec base r1 r2.
  destruct (relatar_uniform t (data_do_arquivo a1) args) as (o & evs & Hevs & Hrun).
  pose proof (main_cache_built to_datetime args w a1 a2 a3 fc fd fs c d s t
                Hglob Hnone Hkc Hkd Hks Hc Hd Hs Hrec) as H1.
  fold base in H1, Hnone.
  pose proof H1 as H1'.
  match type of H1 with _ = relatar _ _ _ ?wa => destruct (Hrun wa) as [ts1 Hr1] end.
  rewrite Hr1 in H1. fold r1 in H1, H1'.
  assert (Hcwd1 : cwd (snd r1) = Dict.set base (FTable t) (cwd w)).
  { rewrite H1. reflexivity. }
  assert (H2 : r2 = relatar_frame (t, match t with [] => false | _ :: _ => true end)
                      (data_do_arquivo a1) args
             (add_trace [Print (nl ++ "Carregando base de dados." ++ nl); ReadCsv base]
                (snd r1))).
  { unfold r2. rewrite (main_cache_hit to_datetime' args (snd r1) a1 [a2; a3] (FTable t)).
    - reflexivity.
    - rewrite Hcwd1, glob_after_to_csv; [exact Hglob|exact Hnone|apply startswith_base].
    - rewrite Hcwd1. apply dict_get_set_eq. }
  split.
  { rewrite H2.
    match goal with
    | |- cwd (snd (relatar_frame ?c0 ?d0 ?a0 ?wx)) = _ =>
        destruct (relatar_frame_report_effect c0 d0 a0 wx) as [Hcw _]; rewrite Hcw
    end.
    reflexivity. }
  exists evs. split; [exact Hevs|]. split.
  { rewrite H1. cbn [snd add_trace add_heap trace].
    repeat first [rewrite <- app_comm_cons | rewrite <- app_assoc]. reflexivity. }
  split.
  - intros Hne. destruct t as [|r t]; [congruence|]. cbn [relatar_frame] in H2.
    destruct (Hrun (add_trace [Print (nl ++ "Carregando base de dados." ++ nl); ReadCsv base]
                      (snd r1))) as [ts2 Hr2].
    rewrite Hr2 in H2. split; [rewrite H2, H1; reflexivity|].
    rewrite H2. cbn [snd add_trace add_heap trace].
    repeat first [rewrite <- app_comm_cons | rewrite <- app_assoc]. reflexivity.
  - intros ->. cbn [relatar_frame] in H2. split; [|split].
    + rewrite H1'. unfold relatar. cbn [apenas_testados forallb List.filter lift].
      unfold bind at 1, ret at 1. unfold bind at 1, alloc.
      apply relatorios_sem_linhas. cbn [heap].
      rewrite lookup_app_r by lia. rewrite Nat.sub_diag. reflexivity.
    + rewrite H2. reflexivity.
    + rewrite H2. reflexivity.
Qed.

Lemma second_run_repeats_reports_witness :
  fst (main Calendar.to_datetime_dmY Exemplo.args
         (snd (main Calendar.to_datetime_dmY Exemplo.args (Exemplo.mundo Exemplo.pasta_nova))))
  = fst (main Calendar.to_datetime_dmY Exemplo.args (Exemplo.mundo Exemplo.pasta_nova)).
Proof.
  destruct (second_run_repeats_reports Calendar.to_datetime_dmY Calendar.to_datetime_dmY
              Exemplo.args (Exemplo.mundo Exemplo.pasta_nova)
              Exemplo.arq_confirmados Exemplo.arq_descartados Exemplo.arq_suspeitos
              Exemplo.arq_confirmados Exemplo.arq_descartados Exemplo.arq_suspeitos
              Exemplo.confirmados Exemplo.descartados Exemplo.suspeitos Exemplo.base
              eq_refl eq_refl eq_refl eq_refl eq_refl eq_refl eq_refl eq_refl eq_refl)
    as (_ & evs & _ & _ & Hsame & _).
  apply Hsame. discriminate.
Defined.

(** Three extracts without lines: the first run ends normally and writes a
    cache without lines; the second run stops on the KeyError of line
    328. *)
Example segunda_execucao_sem_linhas :
  let r1 := main Calendar.to_datetime_dmY Exemplo.args
              (Exemplo.mundo Exemplo3.pasta_sem_linhas) in
  let r2 := main Calendar.to_datetime_dmY Exemplo.args (snd r1) in
  fst r1 = Ok tt
  /\ Dict.get "base-de-testes_2021-01-05.csv" (cwd (snd r1)) = Some (FTable [])
  /\ fst r2 = Raise (KeyError "DATA DA NOTIFICACAO").
Proof. repeat split; reflexivity. Qed.

(** ** The rolled series, day by day *)

Lemma firstn_seq (w k m : nat) : firstn w (seq k m) = seq k (Nat.min w m).
Proof.
  revert k m. induction w as [|w IH]; intros k m; [reflexivity|].
  destruct m as [|m]; [reflexivity|]. simpl. rewrite IH. reflexivity.
Qed.

Lemma seq_from (k n : nat) : seq k n = map (fun j => k + j) (seq 0 n).
Proof.
  revert k. induction n as [|n IH]; intros k; [reflexivity|].
  simpl. f_equal; [lia|]. rewrite (IH (S k)), (IH 1), map_map.
  apply map_ext. intros j. lia.
Qed.

Lemma combine_seq_map {A} (phi : nat -> A) (k n : nat) :
  combine (seq k n) (map phi (seq k n)) = map (fun i => (i, phi i)) (seq k n).
Proof.
  revert k. induction n as [|n IH]; intros k; [reflexivity|].
  simpl. rewrite IH. reflexivity.
Qed.

Lemma janela_em_seq (h : nat -> nat) (w i n : nat) :
  w <= S i -> S i <= n ->
  Series.janela_em w i (map h (seq 0 n)) = map h (seq (S i - w) w).
Proof.
  intros Hw Hi. unfold Series.janela_em.
  rewrite skipn_map, firstn_map, skipn_seq, firstn_seq.
  f_equal. f_equal. lia.
Qed.

Lemma rolling_mean_indexed (w : nat) (g : nat -> Z) (h : nat -> nat) (n : nat) :
  Series.rolling_mean w (map (fun i => (g i, h i)) (seq 0 n))
  = map (fun i => (g i, if ((1 <=? w) && (w <=? S i))%nat
                        then Some (Z.of_nat (Series.soma (map h (seq (S i - w) w)))
                                   # Pos.of_nat w)
                        else None))
        (seq 0 n).
Proof.
  unfold Series.rolling_mean. rewrite map_map. cbn [snd].
  rewrite length_map, length_seq.
  rewrite (combine_seq_map (fun i => (g i, h i)) 0 n), map_map.
  apply map_ext_in. intros i Hi. apply in_seq in Hi. f_equal.
  destruct (Nat.leb_spec 1 w) as [H1|H1]; cbn [andb]; [|reflexivity].
  destruct (Nat.leb_spec w (S i)) as [H2|H2]; [|reflexivity].
  rewrite (janela_em_seq (fun x => h x) w i n) by lia. reflexivity.
Qed.

(** The rolled series of a daily series given by a function on a range of
    days: at day [d] the mean of the [w] values ending at [d], once [w] days
    of the range have gone by. *)
Lemma rolling_mean_intervalo (f : Z -> nat) (lo hi : Z) (w : nat) :
  Series.rolling_mean w (map (fun x => (x, f x)) (Series.intervalo lo hi))
  = map (fun x => (x, if ((1 <=? w)%nat && (lo + Z.of_nat w - 1 <=? x)%Z)
                      then Some (Z.of_nat (Series.soma
                                   (map f (Series.intervalo (x - Z.of_nat w + 1) x)))
                                 # Pos.of_nat w)
                      else None))
        (Series.intervalo lo hi).
Proof.
  unfold Series.intervalo at 1 3. set (n := Z.to_nat (hi - lo + 1)).
  rewrite !map_map.
  rewrite (rolling_mean_indexed w (fun i => (lo + Z.of_nat i)%Z)
             (fun i => f (lo + Z.of_nat i)%Z) n).
  apply map_ext_in. intros i Hi. apply in_seq in Hi. f_equal.
  destruct (Nat.leb_spec 1 w) as [H1|H1]; cbn [andb]; [|reflexivity].
  destruct (Nat.leb_spec w (S i)) as [H2|H2].
  - replace (lo + Z.of_nat w - 1 <=? lo + Z.of_nat i)%Z with true
      by (symmetry; apply Z.leb_le; lia).
    f_equal. f_equal. f_equal. f_equal.
    unfold Series.intervalo.
    replace (Z.to_nat (lo + Z.of_nat i - (lo + Z.of_nat i - Z.of_nat w + 1) + 1)) with w by lia.
    rewrite (seq_from (S i - w) w), !map_map. apply map_ext. intros j. f_equal. lia.
  - replace (lo + Z.of_nat w - 1 <=? lo + Z.of_nat i)%Z with false
      by (symmetry; apply Z.leb_gt; lia).
    reflexivity.
Qed.

Lemma resample_count_intervalo (t : DataFrame) (d0 : Z) (ds : list Z) :
  Series.dias t = d0 :: ds ->
  Series.resample_count t
  = map (fun x => (x, Series.contar_dia t x))
        (Series.intervalo (fold_right Z.min d0 ds) (fold_right Z.max d0 ds)).
Proof. intros H. unfold Series.resample_count. rewrite H. reflexivity. Qed.

Lemma valor_rolling (t : DataFrame) (w : nat) (d : Z) (v : Q) :
  Series.valor d (Series.rolling_mean w (Series.resample_count t)) = Some (Some v) <->
  exists d0 ds,
    Series.dias t = d0 :: ds
    /\ (fold_right Z.min d0 ds + Z.of_nat w - 1 <= d <= fold_right Z.max d0 ds)%Z
    /\ 1 <= w
    /\ v = Z.of_nat (Series.soma (map (Series.contar_dia t)
                                    (Series.intervalo (d - Z.of_nat w + 1) d)))
           # Pos.of_nat w.
Proof.
  destruct (Series.dias t) as [|d0 ds] eqn:Hdias.
  - unfold Series.resample_count. rewrite Hdias. simpl. split; [congruence|].
    intros (d0 & ds & H & _). congruence.
  - rewrite (resample_count_intervalo t d0 ds Hdias), rolling_mean_intervalo.
    set (lo := fold_right Z.min d0 ds). set (hi := fold_right Z.max d0 ds).
    destruct (in_dec Z.eq_dec d (Series.intervalo lo hi)) as [Hin|Hnin].
    + rewrite (valor_index_in _ _ _ Hin). apply in_intervalo in Hin.
      destruct (Nat.leb_spec 1 w) as [H1|H1]; cbn [andb].
      * destruct (Z.leb_spec (lo + Z.of_nat w - 1) d) as [H2|H2].
        -- split.
           ++ intros [= <-]. exists d0, ds. repeat split; try lia. 
           ++ intros (d0' & ds' & [= <- <-] & Hr & _ & ->). reflexivity.
        -- split; [congruence|].
           intros (d0' & ds' & [= <- <-] & Hr & _). fold lo in Hr. lia.
      * split; [congruence|]. intros (d0' & ds' & _ & _ & Hw & _). lia.
    + rewrite (valor_index_notin _ _ _ Hnin). split; [congruence|].
      intros (d0' & ds' & [= <- <-] & Hr & Hw & _). exfalso. apply Hnin.
      apply in_intervalo. fold lo hi in Hr. lia.
Qed.

Lemma soma_map_le {A} (f g : A -> nat) (l : list A) :
  (forall x, f x <= g x) -> Series.soma (map f l) <= Series.soma (map g l).
Proof.
  intros Hfg. induction l as [|x l IH]; simpl; [lia|].
  specialize (Hfg x). lia.
Qed.

Lemma dias_nonempty_filter (p : Row Date -> bool) (t : DataFrame) (c0 : Z) (cs : list Z) :
  Series.dias (List.filter p t) = c0 :: cs ->
  exists d0 ds, Series.dias t = d0 :: ds.
Proof.
  intros H. destruct (Series.dias t) as [|d0 ds] eqn:E; [|eauto].
  exfalso. assert (Hin : In c0 (Series.dias (List.filter p t))) by (rewrite H; left; reflexivity).
  apply dias_filter in Hin. rewrite E in Hin. exact Hin.
Qed.

Lemma rolled_le_helper (w : nat) (t : DataFrame) (d : Z) (vc : Q) :
  Series.valor d (serie_confirmado w t) = Some (Some vc) ->
  exists vt, Series.valor d (serie_tests w t) = Some (Some vt) /\ (vc <= vt)%Q.
Proof.
  unfold serie_confirmado, serie_tests. intros Hc.
  apply valor_rolling in Hc as (c0 & cs & Hdc & Hr & Hw & ->).
  destruct (dias_nonempty_filter _ t c0 cs Hdc) as (d0 & ds & Hdt).
  assert (Hlo : (fold_right Z.min d0 ds <= fold_right Z.min c0 cs)%Z).
  { apply fold_min_le. rewrite <- Hdt. apply (dias_filter (fun r => String.eqb (FONTE r) CONFIRMADOS)).
    fold (apenas_confirmados t). rewrite Hdc. apply fold_min_in. }
  assert (Hhi : (fold_right Z.max c0 cs <= fold_right Z.max d0 ds)%Z).
  { apply fold_max_ge. rewrite <- Hdt. apply (dias_filter (fun r => String.eqb (FONTE r) CONFIRMADOS)).
    fold (apenas_confirmados t). rewrite Hdc. apply fold_max_in. }
  eexists. split.
  - apply valor_rolling. exists d0, ds. split; [exact Hdt|]. split; [lia|].
    split; [exact Hw|reflexivity].
  - unfold Qle. cbn [Qnum Qden].
    apply Z.mul_le_mono_nonneg_r; [lia|]. apply Nat2Z.inj_le.
    apply soma_map_le. intros x. apply contar_dia_filter.
Qed.

(** X7. On every day on which the rolled confirmed series has a value, the
    rolled tested series has one too; the two values are the means, over the
    same [w] calendar days ending at that day, of the daily confirmed counts
    and of the daily tested counts, and the confirmed mean is at most the
    tested mean. *)
Theorem rolled_confirmed_le_tested (w : nat) (t : DataFrame) (d : Z) (vc : Q) :
  Series.valor d (serie_confirmado w t) = Some (Some vc) ->
  exists vt,
    Series.valor d (serie_tests w t) = Some (Some vt)
    /\ (vc <= vt)%Q
    /\ 1 <= w
    /\ vc = Z.of_nat (Series.soma (map (Series.contar_dia (apenas_confirmados t))
                                     (Series.intervalo (d - Z.of_nat w + 1) d)))
            # Pos.of_nat w
    /\ vt = Z.of_nat (Series.soma (map (Series.contar_dia t)
                                     (Series.intervalo (d - Z.of_nat w + 1) d)))
            # Pos.of_nat w.
Proof.
  intros Hc. destruct (rolled_le_helper w t d vc Hc) as (vt & Hvt & Hle).
  exists vt. split; [exact Hvt|]. split; [exact Hle|].
  unfold serie_confirmado in Hc. unfold serie_tests in Hvt.
  apply valor_rolling in Hc as (c0 & cs & _ & _ & Hw & Hvc).
  apply valor_rolling in Hvt as (d0 & ds & _ & _ & _ & Hvt).
  split; [exact Hw|]. split; [exact Hvc|exact Hvt].
Qed.

Lemma rolled_confirmed_le_tested_witness :
  exists vt, Series.valor 18629 (serie_tests 2 Exemplo.dois_dias) = Some (Some vt)
             /\ (3 # 2 <= vt)%Q.
Proof.
  destruct (rolled_confirmed_le_tested 2 Exemplo.dois_dias 18629 (3 # 2) eq_refl)
    as (vt & Hvt & Hle & _).
  exists vt. split; [exact Hvt|exact Hle].
Defined.

(** X8. On every day shown in the confirmed area of a figure, the tested
    area has a value at least as large, and the quotient line has a value,
    which is confirmed over tested and at most 1: the quotient is missing
    only on days that the confirmed area lacks. *)
Theorem ratio_at_most_one (w : nat) (t : DataFrame) (cidade data : string) (d : Z) (c : Q) :
  Series.valor d (chart_confirmado (montar_figura w t cidade data)) = Some c ->
  exists q,
    Series.valor d (chart_tests (montar_figura w t cidade data)) = Some q
    /\ (c <= q)%Q
    /\ Series.valor d (chart_ratio (montar_figura w t cidade data)) = Some (Some (c / q)%Q)
    /\ (c / q <= 1)%Q.
Proof.
  cbn [montar_figura chart_confirmado chart_tests chart_ratio].
  rewrite !manter_gt1_maior_que_1. intros Hc.
  pose proof Hc as Hc'.
  apply valor_maior_que_1 in Hc' as [Hrc Hc1]; [|apply serie_NoDup].
  destruct (rolled_le_helper w t d c Hrc) as (q & Hrq & Hle).
  assert (Hq1 : (1 < q)%Q) by (eapply Qlt_le_trans; eauto).
  assert (Hq : Series.valor d (Series.maior_que_1 (serie_tests w t)) = Some q).
  { apply valor_maior_que_1; [apply serie_NoDup|]. auto. }
  exists q. split; [exact Hq|]. split; [exact Hle|]. split.
  - rewrite valor_dividir, Hc, Hq. reflexivity.
  - apply Qle_shift_div_r.
    + eapply Qlt_trans; [|exact Hq1]. reflexivity.
    + rewrite Qmult_1_l. exact Hle.
Qed.

Lemma ratio_at_most_one_witness :
  exists q,
    Series.valor 18628 (chart_tests (montar_figura 1 Exemplo.dois_dias "ITABUNA" "2021-01-05"))
    = Some q
    /\ (2 # 1 <= q)%Q
    /\ Series.valor 18628
         (chart_ratio (montar_figura 1 Exemplo.dois_dias "ITABUNA" "2021-01-05"))
       = Some (Some ((2 # 1) / q)%Q)
    /\ ((2 # 1) / q <= 1)%Q.
Proof.
  exact (ratio_at_most_one 1 Exemplo.dois_dias "ITABUNA" "2021-01-05" 18628 (2 # 1) eq_refl).
Defined.

(** ** A window longer than the data *)

Lemma maior_que_1_nil (s : list (Z * option Q)) :
  (forall d v, ~ In (d, Some v) s) -> Series.maior_que_1 s = [].
Proof.
  intros H. induction s as [|[d [q|]] s IH]; simpl; [reflexivity| |].
  - exfalso. apply (H d q). left. reflexivity.
  - apply IH. intros d' v Hin. apply (H d' v). right. exact Hin.
Qed.

Lemma In_valor {A} (s : list (Z * A)) (d : Z) (v : A) :
  List.NoDup (map fst s) -> In (d, v) s -> Series.valor d s = Some v.
Proof.
  induction s as [|[x y] s IH]; simpl; [tauto|].
  intros Hnd Hin. apply List.NoDup_cons_iff in Hnd as [Hx Hnd].
  destruct Hin as [[= -> ->]|Hin].
  - rewrite Z.eqb_refl. reflexivity.
  - destruct (Z.eqb_spec x d) as [->|Hne]; [|auto].
    exfalso. apply Hx. apply in_map_iff. exists (d, v). auto.
Qed.

Lemma serie_sem_valor (w : nat) (t : DataFrame) :
  (forall a b, In a (Series.dias t) -> In b (Series.dias t) ->
               (b - a + 1 < Z.of_nat w)%Z) \/ w = 0 ->
  Series.maior_que_1 (Series.rolling_mean w (Series.resample_count t)) = [].
Proof.
  intros Hspan. apply maior_que_1_nil. intros d v Hin.
  apply In_valor in Hin; [|apply serie_NoDup].
  apply valor_rolling in Hin as (d0 & ds & Hd & Hr & Hw & _).
  destruct Hspan as [Hspan|Hz]; [|lia].
  specialize (Hspan (fold_right Z.min d0 ds) (fold_right Z.max d0 ds)).
  rewrite Hd in Hspan.
  specialize (Hspan (fold_min_in d0 ds) (fold_max_in d0 ds)). lia.
Qed.

(** X9. When the notification dates of the lines reported span fewer days
    than the window (or the window is 0), no rolled value exists: the tested
    series, the confirmed series and the quotient handed to the figure are
    all empty. *)
Theorem short_span_empty_figure (t : DataFrame) (cidade data : string) (w : nat) :
  (forall a b, In a (Series.dias t) -> In b (Series.dias t) ->
               (b - a + 1 < Z.of_nat w)%Z)
  \/ w = 0 ->
  chart_tests (montar_figura w t cidade data) = []
  /\ chart_confirmado (montar_figura w t cidade data) = []
  /\ chart_ratio (montar_figura w t cidade data) = [].
Proof.
  intros Hspan.
  assert (Ht : Series.maior_que_1 (serie_tests w t) = []).
  { apply serie_sem_valor. exact Hspan. }
  assert (Hc : Series.maior_que_1 (serie_confirmado w t) = []).
  { apply serie_sem_valor. destruct Hspan as [Hspan|Hz]; [left|right; exact Hz].
    intros a b Ha Hb. unfold apenas_confirmados in Ha, Hb.
    apply dias_filter in Ha, Hb. exact (Hspan a b Ha Hb). }
  cbn [montar_figura chart_tests chart_confirmado chart_ratio].
  rewrite Ht, Hc. split; [reflexivity|]. split; reflexivity.
Qed.

Lemma short_span_empty_figure_witness :
  chart_ratio (montar_figura 28 Exemplo.dois_dias "ITABUNA" "2021-01-05") = [].
Proof.
  refine (proj2 (proj2
    (short_span_empty_figure Exemplo.dois_dias "ITABUNA" "2021-01-05" 28 _))).
  left. intros a b Ha Hb. simpl in Ha, Hb.
  destruct Ha as [<-|[<-|[<-|[<-|[<-|[<-|[]]]]]]];
    destruct Hb as [<-|[<-|[<-|[<-|[<-|[<-|[]]]]]]]; vm_compute; reflexivity.
Defined.

(** ** No line is lost or counted twice by the daily bins *)

Lemma soma_map_add {A} (f g : A -> nat) (l : list A) :
  Series.soma (map (fun x => f x + g x) l) = Series.soma (map f l) + Series.soma (map g l).
Proof. induction l as [|x l IH]; simpl; [reflexivity|]. rewrite IH. lia. Qed.

Lemma soma_indicador (y : Z) (l : list Z) :
  List.NoDup l ->
  Series.soma (map (fun x => if (y =? x)%Z then 1 else 0) l)
  = if in_dec Z.eq_dec y l then 1 else 0.
Proof.
  induction l as [|x l IH]; intros Hnd; [reflexivity|].
  apply List.NoDup_cons_iff in Hnd as [Hx Hnd]. cbn [map Series.soma fold_right].
  fold (Series.soma (map (fun x0 => if (y =? x0)%Z then 1 else 0) l)).
  rewrite (IH Hnd).
  destruct (Z.eqb_spec y x) as [->|Hne].
  - destruct (in_dec Z.eq_dec x l); [tauto|].
    destruct (in_dec Z.eq_dec x (x :: l)) as [_|Hn]; [reflexivity|]. exfalso. apply Hn. left. reflexivity.
  - destruct (in_dec Z.eq_dec y l) as [Hin|Hnin];
      destruct (in_dec Z.eq_dec y (x :: l)) as [Hin'|Hnin']; try reflexivity.
    + exfalso. apply Hnin'. right. exact Hin.
    + exfalso. destruct Hin' as [Heq|Hin']; [congruence|tauto].
Qed.

Lemma soma_zeros {A} (l : list A) : Series.soma (map (fun _ => 0) l) = 0.
Proof. induction l as [|x l IH]; simpl; [reflexivity|exact IH]. Qed.

Lemma contar_dia_cons (r : Row Date) (t : DataFrame) (x : Z) :
  Series.contar_dia (r :: t) x
  = (if Series.no_dia x r && notnull (TESTE r) then 1 else 0) + Series.contar_dia t x.
Proof.
  unfold Series.contar_dia. simpl.
  destruct (Series.no_dia x r && notnull (TESTE r)); reflexivity.
Qed.

(** Over a range of days that holds every day of the table, the daily
    counts add up to the number of dated lines with a non-null [TESTE]. *)
Lemma soma_contar_dia (t : DataFrame) (lo hi : Z) :
  (forall x, In x (Series.dias t) -> (lo <= x <= hi)%Z) ->
  Series.soma (map (Series.contar_dia t) (Series.intervalo lo hi))
  = length (List.filter (fun r => notnull (DATA_DA_NOTIFICACAO r) && notnull (TESTE r)) t).
Proof.
  induction t as [|r t IH]; intros Hr.
  - apply (soma_zeros (Series.intervalo lo hi)).
  - rewrite (map_ext _ _ (contar_dia_cons r t)), soma_map_add, IH.
    2:{ intros x Hx. apply Hr. unfold Series.dias in *. simpl.
        apply in_app_iff. right. exact Hx. }
    cbn [List.filter]. unfold Series.no_dia.
    destruct (DATA_DA_NOTIFICACAO r) as [dt|] eqn:Hdt; cbn [notnull andb].
    + assert (Hin : In (Calendar.ordinal dt) (Series.intervalo lo hi)).
      { apply in_intervalo. apply Hr. unfold Series.dias. simpl. rewrite Hdt. left. reflexivity. }
      destruct (TESTE r) as [b|]; cbn [notnull].
      * rewrite (map_ext _ (fun x => if (Calendar.ordinal dt =? x)%Z then 1 else 0)).
        2:{ intros x. rewrite andb_true_r. reflexivity. }
        rewrite soma_indicador by apply intervalo_NoDup.
        destruct (in_dec Z.eq_dec (Calendar.ordinal dt) (Series.intervalo lo hi)); [|tauto].
        reflexivity.
      * rewrite (map_ext (fun x => if (Calendar.ordinal dt =? x)%Z && false then 1 else 0)
                         (fun _ => 0)).
        2:{ intros x. rewrite andb_false_r. reflexivity. }
        rewrite soma_zeros. reflexivity.
    + rewrite soma_zeros. reflexivity.
Qed.

Lemma dias_nil (t : DataFrame) :
  Series.dias t = [] -> Forall (fun r => DATA_DA_NOTIFICACAO r = None) t.
Proof.
  induction t as [|r t IH]; intros H; [constructor|].
  unfold Series.dias in H. simpl in H.
  destruct (DATA_DA_NOTIFICACAO r) eqn:E; [discriminate|].
  constructor; [exact E|apply IH; exact H].
Qed.

Lemma filter_datadas_all (t : DataFrame) :
  Forall (fun r => DATA_DA_NOTIFICACAO r <> None /\ TESTE r <> None) t ->
  length (List.filter (fun r => notnull (DATA_DA_NOTIFICACAO r) && notnull (TESTE r)) t)
  = length t.
Proof.
  induction 1 as [|r t [Hd Ht] _ IH]; [reflexivity|].
  simpl. destruct (DATA_DA_NOTIFICACAO r); [|congruence].
  destruct (TESTE r); [|congruence]. simpl. f_equal. exact IH.
Qed.

(** X10. The daily counts of a table add up to the number of its lines
    that have a notification date and a non-null [TESTE]: the bins lose no
    such line and count none twice.  On a table whose lines all have both,
    as the reconciled tested table, the sum is the total [N] written on the
    figure. *)
Theorem daily_counts_total (t : DataFrame) :
  Series.soma (map snd (Series.resample_count t))
  = length (List.filter (fun r => notnull (DATA_DA_NOTIFICACAO r) && notnull (TESTE r)) t)
  /\ (Forall (fun r => DATA_DA_NOTIFICACAO r <> None /\ TESTE r <> None) t ->
      forall w cidade data,
        Series.soma (map snd (Series.resample_count t))
        = chart_total (montar_figura w t cidade data)).
Proof.
  assert (Htotal : Series.soma (map snd (Series.resample_count t))
    = length (List.filter (fun r => notnull (DATA_DA_NOTIFICACAO r) && notnull (TESTE r)) t)).
  { destruct (Series.dias t) as [|d0 ds] eqn:Hd.
    - unfold Series.resample_count. rewrite Hd. simpl.
      apply dias_nil in Hd. induction Hd as [|r t Hr _ IH]; [reflexivity|].
      simpl. rewrite Hr. exact IH.
    - rewrite (resample_count_intervalo t d0 ds Hd), map_map. cbn [snd].
      apply soma_contar_dia. intros x Hx. rewrite Hd in Hx. split.
      + apply fold_min_le. exact Hx.
      + apply fold_max_ge. exact Hx. }
  split; [exact Htotal|].
  intros Hall w cidade data. rewrite Htotal. cbn [montar_figura chart_total].
  apply filter_datadas_all. exact Hall.
Qed.

(** ** The batch of reports *)

(** X11. With a negative window the batch stops at the first requested
    municipality that has lines: after its header the function raises, no
    figure is made, the folder is untouched and the remaining names are not
    processed.  The exception is the refusal of the rolling window
    (ValueError), unless the last day of the lines selected is 2262-04-11,
    in which case [resample], which comes first on line 158, has already
    raised. *)
Theorem negative_window_aborts_batch (l : loc) (t : DataFrame) (cidade data : string)
    (janela : Z) (interativo : bool) (resto : list string) (w : World) :
  heap w !! l = Some t ->
  (janela < 0)%Z ->
  (if String.eqb cidade BAHIA then t else filtrar_cidade cidade t) <> [] ->
  exists e w1,
    relatorios l data janela interativo (cidade :: resto) w = (Raise e, w1)
    /\ trace w1 = trace w ++ [Print ("Plotando gráficos para a cidade: " ++ cidade)]
    /\ cwd w1 = cwd w
    /\ e = (if fora_dos_limites (if String.eqb cidade BAHIA then t
                                 else filtrar_cidade cidade t)
            then ValueError MSG_FORA_DOS_LIMITES
            else ValueError "window must be non-negative").
Proof.
  intros Hl Hj Hsel. rewrite relatorios_cons.
  set (w0 := add_trace [Print ("Plotando gráficos para a cidade: " ++ cidade)] w).
  assert (Hl0 : heap w0 !! l = Some t) by exact Hl.
  assert (Hcorpo : forall sel w', sel <> [] ->
            plotar_corpo sel cidade data janela interativo w'
            = (Raise (if fora_dos_limites sel then ValueError MSG_FORA_DOS_LIMITES
                      else ValueError "window must be non-negative"), w')).
  { intros sel w' Hne. unfold plotar_corpo. destruct sel as [|r sel]; [congruence|].
    cbn [length Nat.eqb]. destruct (fora_dos_limites (r :: sel)); [reflexivity|].
    apply Z.ltb_lt in Hj. rewrite Hj. reflexivity. }
  destruct (String.eqb_spec cidade BAHIA) as [->|Hne].
  - eexists _, w0. split; [|split; [|split]]; try reflexivity.
    apply bind_raise. rewrite (plotar_bahia l t data janela interativo w0 Hl0).
    apply Hcorpo. exact Hsel.
  - eexists _, (add_heap [filtrar_cidade cidade t] w0).
    split; [|split; [|split]]; try reflexivity.
    apply bind_raise. rewrite (plotar_cidade l t cidade data janela interativo w0 Hl0 Hne).
    apply Hcorpo. exact Hsel.
Qed.

Lemma negative_window_aborts_batch_witness :
  fst (relatorios 0 "2021-01-05" (-7) false ["ITABUNA"; "ILHEUS"] Exemplo.mundo_com_tabela)
  = Raise (ValueError "window must be non-negative").
Proof.
  destruct (negative_window_aborts_batch 0 Exemplo.testados "ITABUNA" "2021-01-05" (-7)
              false ["ILHEUS"] Exemplo.mundo_com_tabela eq_refl eq_refl)
    as (e & w1 & Hrun & _ & _ & He).
  - discriminate.
  - rewrite Hrun, He. reflexivity.
Defined.

Lemma bind_assoc {A B C} (m : M A) (k : A -> M B) (k' : B -> M C) (w : World) :
  bind (bind m k) k' w = bind m (fun a => bind (k a) k') w.
Proof. unfold bind. destruct (m w) as [[a|e] w1]; reflexivity. Qed.

(** X12. A batch over a list of names followed by another is the batch of
    the first list followed, if it ends normally, by the batch of the
    second, run in the world the first one left; if the first raises, the
    second is not run. *)
Theorem relatorios_app (l : loc) (data : string) (janela : Z) (interativo : bool)
    (cidades1 cidades2 : list string) (w : World) :
  relatorios l data janela interativo (cidades1 ++ cidades2) w
  = match relatorios l data janela interativo cidades1 w with
    | (Ok _, w1) => relatorios l data janela interativo cidades2 w1
    | (Raise e, w1) => (Raise e, w1)
    end.
Proof.
  revert w. induction cidades1 as [|cidade resto IH]; intros w; [reflexivity|].
  cbn [app]. rewrite !relatorios_cons. unfold bind.
  destruct (plotar_testes_por_cidade l cidade data janela interativo _) as [[[]|e] w1].
  - apply IH.
  - reflexivity.
Qed.

(** ** What the reconciler keeps of the extracts *)

Lemma sublist_filter_list {A} (p : A -> bool) (l : list A) : sublist (List.filter p l) l.
Proof.
  induction l as [|x l IH]; simpl; [constructor|].
  destruct (p x); constructor; exact IH.
Qed.

Lemma sublist_map_list {A B} (f : A -> B) (l1 l2 : list A) :
  sublist l1 l2 -> sublist (map f l1) (map f l2).
Proof. induction 1; simpl; constructor; assumption. Qed.

Lemma map_const_repeat {A B} (x : B) (f : A -> B) (l : list A) :
  (forall a, f a = x) -> map f l = repeat x (length l).
Proof.
  intros Hf. induction l as [|a l IH]; simpl; [reflexivity|].
  rewrite Hf, IH. reflexivity.
Qed.

Lemma combinar_fontes (c d s : list RawRow) :
  map FONTE (Reconciler.combinar c d s)
  = repeat CONFIRMADOS (length c) ++ repeat DESCARTADOS (length d)
    ++ repeat SUSPEITOS (length s).
Proof.
  unfold Reconciler.combinar. rewrite !map_app, !map_map.
  rewrite (map_const_repeat CONFIRMADOS), (map_const_repeat DESCARTADOS),
    (map_const_repeat SUSPEITOS); reflexivity.
Qed.

Lemma converter_datas_outras (to_datetime : ToDatetime) (rows : list (Row string))
    (t0 : DataFrame) :
  Reconciler.converter_datas to_datetime rows = Ok t0 ->
  map outras_colunas t0 = map outras_colunas rows.
Proof.
  unfold Reconciler.converter_datas.
  destruct (to_datetime _) as [ds|]; [|congruence].
  destruct (Nat.eqb_spec (length ds) (length rows)) as [Hlen|]; [|congruence].
  intros [= <-]. clear to_datetime. revert ds Hlen.
  induction rows as [|r rows IH]; intros [|x ds] Hlen; simpl in *; try congruence.
  f_equal. apply IH. lia.
Qed.

(** X13. The lines of a table the reconciler returns are lines of the
    three extracts that carry a notification date, in their order
    (confirmed first, then discarded, then suspected), with municipality,
    tested flag, source label and collection date untouched: only the
    notification date is converted, and no line is added. *)
Theorem reconciliar_keeps_lines (to_datetime : ToDatetime) (c d s : list RawRow)
    (t : DataFrame) :
  Reconciler.reconciliar to_datetime c d s = Ok t ->
  sublist (map outras_colunas t)
          (map outras_colunas (Reconciler.com_data (Reconciler.combinar c d s)))
  /\ sublist (map FONTE t)
             (repeat CONFIRMADOS (length c) ++ repeat DESCARTADOS (length d)
              ++ repeat SUSPEITOS (length s))
  /\ length t <= length c + length d + length s.
Proof.
  unfold Reconciler.reconciliar.
  destruct (Reconciler.converter_datas _ _) as [t0|e] eqn:Hconv; [|congruence].
  intros [= <-]. apply converter_datas_outras in Hconv.
  assert (H1 : sublist (map outras_colunas (List.filter Reconciler.ano_valido t0))
                 (map outras_colunas (Reconciler.com_data (Reconciler.combinar c d s)))).
  { rewrite <- Hconv. apply sublist_map_list, sublist_filter_list. }
  assert (H2 : sublist (map FONTE (List.filter Reconciler.ano_valido t0))
                 (repeat CONFIRMADOS (length c) ++ repeat DESCARTADOS (length d)
                  ++ repeat SUSPEITOS (length s))).
  { rewrite <- combinar_fontes.
    transitivity (map FONTE (Reconciler.com_data (Reconciler.combinar c d s))).
    - replace (map FONTE (List.filter Reconciler.ano_valido t0))
        with (map (fun x : option string * option bool * string * option string =>
                     snd (fst x)) (map outras_colunas (List.filter Reconciler.ano_valido t0)))
        by (rewrite map_map; reflexivity).
      replace (map FONTE (Reconciler.com_data (Reconciler.combinar c d s)))
        with (map (fun x : option string * option bool * string * option string =>
                     snd (fst x))
                (map outras_colunas (Reconciler.com_data (Reconciler.combinar c d s))))
        by (rewrite map_map; reflexivity).
      apply sublist_map_list. exact H1.
    - apply sublist_map_list, sublist_filter_list. }
  split; [exact H1|]. split; [exact H2|].
  apply sublist_length in H2. rewrite length_map, !length_app, !repeat_length in H2.
  lia.
Qed.

Lemma reconciliar_keeps_lines_witness :
  sublist (map FONTE Exemplo.base)
          (repeat CONFIRMADOS 6 ++ repeat DESCARTADOS 3 ++ repeat SUSPEITOS 3).
Proof.
  exact (proj1 (proj2 (reconciliar_keeps_lines Calendar.to_datetime_dmY
                         Exemplo.confirmados Exemplo.descartados Exemplo.suspeitos
                         Exemplo.base eq_refl))).
Defined.

Lemma coluna_data_com_data (rows : list (Row string)) :
  map Some (Reconciler.coluna_data (Reconciler.com_data rows))
  = map DATA_DA_NOTIFICACAO (Reconciler.com_data rows).
Proof.
  unfold Reconciler.coluna_data, Reconciler.com_data.
  induction rows as [|r rows IH]; simpl; [reflexivity|].
  destruct (DATA_DA_NOTIFICACAO r) as [x|] eqn:E; simpl; [|exact IH].
  rewrite E. simpl. f_equal. exact IH.
Qed.

Lemma to_datetime_dmY_length (col : list string) (ds : list (option Date)) :
  Calendar.to_datetime_dmY col = Some ds -> length ds = length col.
Proof.
  revert ds. induction col as [|x col IH]; simpl; intros ds H.
  - injection H as <-. reflexivity.
  - destruct (if Calendar.nat_string x then Some None
              else match Calendar.strptime_dmY x with
                   | Some d => Some (Some d)
                   | None => None
                   end) as [cell|]; [|discriminate].
    destruct (Calendar.to_datetime_dmY col) as [cs|]; [|discriminate].
    injection H as <-. simpl. f_equal. apply IH. reflexivity.
Qed.

(** X14. The texts handed to the date conversion are exactly the
    notification dates of the lines kept after the null dates are dropped,
    in order, one per line (no null ever reaches the conversion); and with a
    conversion that returns one cell per text, the reconciler returns a
    table exactly when the conversion returns. *)
Theorem reconciliar_returns_iff (to_datetime : ToDatetime) (c d s : list RawRow) :
  (forall col ds, to_datetime col = Some ds -> length ds = length col) ->
  let rows := Reconciler.com_data (Reconciler.combinar c d s) in
  map Some (Reconciler.coluna_data rows) = map DATA_DA_NOTIFICACAO rows
  /\ length (Reconciler.coluna_data rows) = length rows
  /\ ((exists t, Reconciler.reconciliar to_datetime c d s = Ok t)
      <-> exists ds, to_datetime (Reconciler.coluna_data rows) = Some ds).
Proof.
  intros Hlen rows.
  assert (Hcol : map Some (Reconciler.coluna_data rows) = map DATA_DA_NOTIFICACAO rows)
    by apply coluna_data_com_data.
  assert (Hl : length (Reconciler.coluna_data rows) = length rows).
  { apply (f_equal (@length _)) in Hcol. rewrite !length_map in Hcol. exact Hcol. }
  split; [exact Hcol|]. split; [exact Hl|].
  unfold Reconciler.reconciliar, Reconciler.converter_datas. fold rows.
  destruct (to_datetime (Reconciler.coluna_data rows)) as [ds|] eqn:Hds.
  - rewrite (Hlen _ _ Hds), Hl, Nat.eqb_refl. split; eauto.
  - split; intros [x Hx]; congruence.
Qed.

Lemma reconciliar_returns_iff_witness :
  (exists t, Reconciler.reconciliar Calendar.to_datetime_dmY
               Exemplo.confirmados Exemplo.descartados Exemplo.suspeitos = Ok t)
  <-> exists ds, Calendar.to_datetime_dmY
                   (Reconciler.coluna_data
                      (Reconciler.com_data
                         (Reconciler.combinar Exemplo.confirmados Exemplo.descartados
                            Exemplo.suspeitos))) = Some ds.
Proof.
  exact (proj2 (proj2 (reconciliar_returns_iff Calendar.to_datetime_dmY
                         Exemplo.confirmados Exemplo.descartados Exemplo.suspeitos
                         to_datetime_dmY_length))).
Defined.

Lemma converter_datas_In (to_datetime : ToDatetime) (rows : list (Row string))
    (t0 : DataFrame) (r : Row Date) :
  Reconciler.converter_datas to_datetime rows = Ok t0 ->
  In r t0 ->
  exists r0, In r0 rows /\ r = Reconciler.set_data r0 (DATA_DA_NOTIFICACAO r).
Proof.
  unfold Reconciler.converter_datas.
  destruct (to_datetime _) as [ds|]; [|congruence].
  destruct (Nat.eqb _ _); [|congruence].
  intros [= <-] Hin. apply in_map_iff in Hin as [[r0 x] [<- Hin]].
  exists r0. split; [eapply in_combine_l; eauto|reflexivity].
Qed.

(** X15. Every line handed to the reports after a reconciliation is, with
    its municipality unchanged, a dated line of the confirmed extract, a
    dated line of the discarded extract, or a dated line of the suspected
    extract that has a test type, a collection date or a test result and
    whose test status is not "EXAME NAO SOLICITADO". *)
Theorem reported_lines_origin (to_datetime : ToDatetime) (c d s : list RawRow)
    (t t' : DataFrame) :
  Reconciler.reconciliar to_datetime c d s = Ok t ->
  apenas_testados t = Ok t' ->
  Forall (fun r =>
            exists raw,
              raw_DATA_DA_NOTIFICACAO raw <> None
              /\ MUNICIPIO_DE_RESIDENCIA r = raw_MUNICIPIO_DE_RESIDENCIA raw
              /\ DATA_DA_COLETA_DO_TESTE r = raw_DATA_DA_COLETA_DO_TESTE raw
              /\ ((In raw c /\ FONTE r = CONFIRMADOS)
                  \/ (In raw d /\ FONTE r = DESCARTADOS)
                  \/ (In raw s /\ FONTE r = SUSPEITOS
                      /\ (raw_TIPO_DE_TESTE raw <> None
                          \/ raw_DATA_DA_COLETA_DO_TESTE raw <> None
                          \/ raw_RESULTADO_DO_TESTE raw <> None)
                      /\ raw_ESTADO_DO_TESTE raw <> Some EXAME_NAO_SOLICITADO))) t'.
Proof.
  intros Hrec Htest. apply List.Forall_forall. intros r Hr.
  apply (apenas_testados_In _ _ Htest) in Hr as [Hr Hteste].
  unfold Reconciler.reconciliar in Hrec.
  destruct (Reconciler.converter_datas _ _) as [t0|e] eqn:Hconv; [|congruence].
  injection Hrec as <-. apply filter_In in Hr as [Hr _].
  destruct (converter_datas_In _ _ _ _ Hconv Hr) as (r0 & Hr0 & Heq).
  unfold Reconciler.com_data in Hr0. apply filter_In in Hr0 as [Hr0 Hdata].
  apply notnull_true in Hdata.
  assert (Hm : MUNICIPIO_DE_RESIDENCIA r = MUNICIPIO_DE_RESIDENCIA r0) by (rewrite Heq; reflexivity).
  assert (Hco : DATA_DA_COLETA_DO_TESTE r = DATA_DA_COLETA_DO_TESTE r0) by (rewrite Heq; reflexivity).
  assert (Hf : FONTE r = FONTE r0) by (rewrite Heq; reflexivity).
  assert (Ht : TESTE r0 = Some true) by (rewrite <- Hteste, Heq; reflexivity).
  unfold Reconciler.combinar in Hr0. rewrite !in_app_iff, !map_map, !in_map_iff in Hr0.
  destruct Hr0 as [[raw [<- Hin]]|[[raw [<- Hin]]|[raw [<- Hin]]]];
    exists raw; (split; [exact Hdata|]); (split; [exact Hm|]); (split; [exact Hco|]).
  - left. auto.
  - right. left. auto.
  - right. right. split; [exact Hin|]. split; [exact Hf|].
    pose proof (teste_suspeito_spec raw) as (_ & _ & Hiff & _).
    apply Hiff. exact Ht.
Qed.

Lemma reported_lines_origin_witness :
  Forall (fun r =>
            exists raw,
              raw_DATA_DA_NOTIFICACAO raw <> None
              /\ MUNICIPIO_DE_RESIDENCIA r = raw_MUNICIPIO_DE_RESIDENCIA raw
              /\ DATA_DA_COLETA_DO_TESTE r = raw_DATA_DA_COLETA_DO_TESTE raw
              /\ ((In raw Exemplo.confirmados /\ FONTE r = CONFIRMADOS)
                  \/ (In raw Exemplo.descartados /\ FONTE r = DESCARTADOS)
                  \/ (In raw Exemplo.suspeitos /\ FONTE r = SUSPEITOS
                      /\ (raw_TIPO_DE_TESTE raw <> None
                          \/ raw_DATA_DA_COLETA_DO_TESTE raw <> None
                          \/ raw_RESULTADO_DO_TESTE raw <> None)
                      /\ raw_ESTADO_DO_TESTE raw <> Some EXAME_NAO_SOLICITADO)))
         Exemplo.testados.
Proof.
  exact (reported_lines_origin Calendar.to_datetime_dmY
           Exemplo.confirmados Exemplo.descartados Exemplo.suspeitos
           Exemplo.base Exemplo.testados eq_refl eq_refl).
Defined.
